(** * Kernel BIF, AD102: eRoT grant handshake and XVE register map set-up

    A shallow embedding of [kernel_bif_ad102.c]
    (src/nvidia/src/kernel/gpu/bif/arch/ada) and the properties of its two
    entry points, [kbifPreOsGlobalErotGrantRequest_AD102] and
    [kbifInitXveRegMap_AD102].

    Hardware and operating-system collaborators are modelled as scripted
    oracles: the n-th register read and the n-th allocation return what the
    script says, so a statement quantified over the scripts covers every
    behaviour of the device and of the allocator.  Everything the functions
    do to the outside is appended to a chronological trace. *)

From Stdlib Require Import ZArith List Bool String Ascii Lia.
From Equations Require Import Equations.
Import ListNotations.
Local Open Scope Z_scope.

(** ** Machine integers and pointers *)

Definition NvU32 := Z.
Definition NvU8 := Z.
Definition NvBool := bool.

(** Reduction of an unsigned 32-bit result. *)
Definition wrap32 (x : Z) : NvU32 := x mod 2 ^ 32.

(** Bitwise complement on 32 bits, C's [~] at type [NvU32]. *)
Definition not32 (x : NvU32) : NvU32 := Z.lxor x 0xFFFFFFFF.

(** Addresses; [NULL] is address zero. *)
Definition pointer := Z.
Definition NULL : pointer := 0.
Definition is_null (p : pointer) : bool := p =? NULL.

Definition sizeof_NvU32 : Z := 4.

(** Status codes of the resource manager (an enumeration in the source). *)
Inductive NV_STATUS : Type :=
| NV_OK
| NV_ERR_GENERIC
| NV_ERR_INVALID_ARGUMENT
| NV_ERR_INVALID_STATE
| NV_ERR_NO_MEMORY
| NV_ERR_NOT_SUPPORTED
| NV_ERR_TIMEOUT.

Definition status_is_ok (s : NV_STATUS) : bool :=
  match s with NV_OK => true | _ => false end.

Inductive PrintLevel : Type :=
| LEVEL_INFO | LEVEL_NOTICE | LEVEL_WARNING | LEVEL_ERROR.

(** ** Register fields *)

Module DRF.

(** A field extent, written [hi:lo] in the register manuals. *)
Record field : Type := Field { hi : Z; lo : Z }.

(** Modelled from the spec: the shift of a field descriptor, the position
    of the field's lowest bit (the DRF macros live in a header that is
    not part of the sources). *)
Definition DRF_SHIFT (f : field) : Z := lo f mod 32.

(** Modelled from the spec: the mask of a field descriptor, as many low
    one bits as the field is wide. *)
Definition DRF_MASK (f : field) : NvU32 :=
  Z.shiftr 0xFFFFFFFF (31 - (hi f mod 32) + (lo f mod 32)).

(** Modelled from the spec: the mask of a field, in place. *)
Definition DRF_SHIFTMASK (f : field) : NvU32 :=
  wrap32 (Z.shiftl (DRF_MASK f) (DRF_SHIFT f)).

(** Modelled from the spec: an encoded state of a field, in place. *)
Definition DRF_DEF (f : field) (c : NvU32) : NvU32 :=
  wrap32 (Z.shiftl c (DRF_SHIFT f)).

(** Modelled from the spec: decoding a field of a register value. *)
Definition DRF_VAL (f : field) (v : NvU32) : NvU32 :=
  Z.land (Z.shiftr v (DRF_SHIFT f)) (DRF_MASK f).

(** Modelled from the spec: the field test of the register field codec
    ([FLD_TEST_DRF], from the same missing header); it compares the
    decoded field with an expected state and ignores the bits outside the
    mask. *)
Definition FLD_TEST_DRF (f : field) (c : NvU32) (v : NvU32) : NvBool :=
  DRF_VAL f v =? c.

(** Modelled from the spec: the field update of the register field codec
    ([FLD_SET_DRF]); it yields a new value with the field set to a state
    and the bits outside the mask untouched. *)
Definition FLD_SET_DRF (f : field) (c : NvU32) (v : NvU32) : NvU32 :=
  Z.lor (Z.land v (not32 (DRF_SHIFTMASK f))) (DRF_DEF f c).

End DRF.
Import DRF.

(** The layout of the grant register comes from the chip's bus manual
    ([dev_bus_addendum.h]), which the configuration supplies. *)
Class ErotGrantLayout : Type := {
  NV_PBUS_SW_GLOBAL_EROT_GRANT : Z;
  NV_PBUS_SW_GLOBAL_EROT_GRANT_VALID : field;
  NV_PBUS_SW_GLOBAL_EROT_GRANT_VALID_NO : NvU32;
  NV_PBUS_SW_GLOBAL_EROT_GRANT_ALLOW : field;
  NV_PBUS_SW_GLOBAL_EROT_GRANT_ALLOW_YES : NvU32;
  NV_PBUS_SW_GLOBAL_EROT_GRANT_REQUEST : field;
  NV_PBUS_SW_GLOBAL_EROT_GRANT_REQUEST_SET : NvU32
}.

(** ** The register map of a PCIe function *)

Record KBIF_XVE_REGMAP_REF : Type := {
  nFunc : NvU8;
  (* pointers to the constant tables, [None] for a null pointer *)
  xveRegMapValid : option (list NvU32);
  xveRegMapWrite : option (list NvU32);
  numXveRegMapValid : Z;
  numXveRegMapWrite : Z;
  bufBootConfigSpace : pointer;
  bufMsixTable : pointer
}.

Record KernelBif : Type := {
  xveRegmapRef_0 : KBIF_XVE_REGMAP_REF;        (* xveRegmapRef[0] *)
  xveRegmapRef_1 : KBIF_XVE_REGMAP_REF;        (* xveRegmapRef[1] *)
  cacheData_gpuBootConfigSpace : pointer       (* cacheData.gpuBootConfigSpace *)
}.

(** ** Observable events and the machine state *)

Inductive event : Type :=
| RegRd (addr : Z) (val : NvU32)
| RegWr (addr : Z) (val : NvU32)
| MemAlloc (size : Z) (result : pointer)
| Printf (level : PrintLevel) (fmt : string) (args : list Z)
| AssertFailed
| CondWaitEnter (timeout : Z).

Record State : Type := {
  regScript : nat -> NvU32;          (* value returned by the n-th register read *)
  regReads : nat;                    (* register reads done so far *)
  memScript : nat -> Z -> pointer;   (* result of the n-th allocation, by size *)
  memAllocs : nat;                   (* allocations done so far *)
  kbif : KernelBif;                  (* the object behind pKernelBif *)
  trace : list event                 (* what happened, oldest first *)
}.

(** Computations over the machine state. *)
Definition M (A : Type) : Type := State -> A * State.

Definition ret {A} (a : A) : M A := fun s => (a, s).
Definition bind {A B} (m : M A) (k : A -> M B) : M B :=
  fun s => let (a, s') := m s in k a s'.

Declare Scope m_scope.
Delimit Scope m_scope with M.
Notation "x <- m ;; k" := (bind m (fun x => k))
  (at level 61, m at next level, right associativity) : m_scope.
Notation "m ;;; k" := (bind m (fun _ => k))
  (at level 61, right associativity) : m_scope.

Definition logEvent (e : event) (s : State) : State :=
  {| regScript := regScript s; regReads := regReads s;
     memScript := memScript s; memAllocs := memAllocs s;
     kbif := kbif s; trace := trace s ++ [e] |}.

Definition emit (e : event) : M unit := fun s => (tt, logEvent e s).

Definition GPU_REG_RD32 (addr : Z) : M NvU32 := fun s =>
  let v := regScript s (regReads s) in
  (v, {| regScript := regScript s; regReads := S (regReads s);
         memScript := memScript s; memAllocs := memAllocs s;
         kbif := kbif s; trace := trace s ++ [RegRd addr v] |}).

Definition GPU_REG_WR32 (addr : Z) (v : NvU32) : M unit :=
  emit (RegWr addr v).

Definition portMemAllocNonPaged (size : Z) : M pointer := fun s =>
  let p := memScript s (memAllocs s) size in
  (p, {| regScript := regScript s; regReads := regReads s;
         memScript := memScript s; memAllocs := S (memAllocs s);
         kbif := kbif s; trace := trace s ++ [MemAlloc size p] |}).

Definition NV_PRINTF (l : PrintLevel) (fmt : string) (args : list Z) : M unit :=
  emit (Printf l fmt args).

Definition NV_ASSERT (cond : bool) : M unit :=
  if cond then ret tt else emit AssertFailed.

Definition getKernelBif : M KernelBif := fun s => (kbif s, s).

Definition setKernelBif (k : KernelBif) : M unit := fun s =>
  (tt, {| regScript := regScript s; regReads := regReads s;
          memScript := memScript s; memAllocs := memAllocs s;
          kbif := k; trace := trace s |}).

(** The value the next register read will return, and the one after it. *)
Definition nextRead (s : State) : NvU32 := regScript s (regReads s).
Definition secondRead (s : State) : NvU32 := regScript s (S (regReads s)).

(** ** Wall-clock time and the bounded poll *)

(** The clock is kept outside [State]: a wait condition reads hardware but
    has no hold on time. *)
Record World : Type := { sys : State; clock : Z }.

Definition W (A : Type) : Type := World -> A * World.

Definition liftM {A} (m : M A) : W A := fun w =>
  let (a, s') := m (sys w) in (a, {| sys := s'; clock := clock w |}).

Definition GpuWaitConditionFunc : Type := pointer -> M NvBool.

Record RMTIMEOUT : Type := {
  duration : Z;            (* time budget of one wait *)
  interval : positive      (* pause between two checks of the condition *)
}.

Class TimeoutConfig : Type := { GPU_TIMEOUT_DEFAULT : RMTIMEOUT }.

Definition atClock (s : State) (t : Z) : World := {| sys := s; clock := t |}.

(** Modelled from the spec: the bounded poll [gpuTimeoutCondWait] (its
    definition is not part of the sources).  The condition is invoked at
    once, before the deadline is looked at; when it holds the wait succeeds,
    otherwise the wait times out if the monotonic clock has reached the
    deadline, and else pauses for the poll interval and checks again.  The
    poll itself does no hardware access. *)
Equations? pollLoop (pCondFunc : GpuWaitConditionFunc) (pCondData : pointer)
    (pause : positive) (deadline : Z) (w : World) : NV_STATUS * World
    by wf (Z.to_nat (deadline - clock w)) lt :=
  pollLoop pCondFunc pCondData pause deadline w
    with pCondFunc pCondData (sys w) := {
    | (true, s') := (NV_OK, atClock s' (clock w));
    | (false, s') with Z_le_gt_dec deadline (clock w) := {
        | left _ := (NV_ERR_TIMEOUT, atClock s' (clock w));
        | right _ :=
            pollLoop pCondFunc pCondData pause deadline
                     (atClock s' (clock w + Z.pos pause)) } }.
Proof. simpl. lia. Qed.

(** Modelled from the spec: the same loop with a budget of iterations,
    [None] when the budget runs out before the loop has ended.  It serves
    to count how often the loop body can run. *)
Fixpoint pollFuel (fuel : nat) (pCondFunc : GpuWaitConditionFunc)
    (pCondData : pointer) (pause : positive) (deadline : Z) (w : World)
    : option (NV_STATUS * World) :=
  match fuel with
  | O => None
  | S fuel' =>
      let (holds, s') := pCondFunc pCondData (sys w) in
      if holds then Some (NV_OK, atClock s' (clock w))
      else if Z_le_gt_dec deadline (clock w)
           then Some (NV_ERR_TIMEOUT, atClock s' (clock w))
           else pollFuel fuel' pCondFunc pCondData pause deadline
                         (atClock s' (clock w + Z.pos pause))
  end.

(** The world in which a poll with budget [t] starts. *)
Definition pollEntry (t : RMTIMEOUT) (w : World) : World :=
  atClock (logEvent (CondWaitEnter (duration t)) (sys w)) (clock w).

Section Handshake.

Context {layout : ErotGrantLayout} {timing : TimeoutConfig}.

(** Modelled from the spec: entry point of the bounded poll; a null
    timeout argument selects the default budget. *)
Definition gpuTimeoutCondWait (pCondFunc : GpuWaitConditionFunc)
    (pCondData : pointer) (pTimeout : option RMTIMEOUT) : W NV_STATUS :=
  fun w =>
    let t := match pTimeout with
             | Some t => t
             | None => GPU_TIMEOUT_DEFAULT
             end in
    pollLoop pCondFunc pCondData (interval t) (clock w + duration t)
             (pollEntry t w).

Definition _kbifPreOsCheckErotGrantAllowed_AD102 : GpuWaitConditionFunc :=
  fun _pVoid s =>
    let (reg, s1) := GPU_REG_RD32 NV_PBUS_SW_GLOBAL_EROT_GRANT s in
    (FLD_TEST_DRF NV_PBUS_SW_GLOBAL_EROT_GRANT_ALLOW
                  NV_PBUS_SW_GLOBAL_EROT_GRANT_ALLOW_YES reg, s1).

Definition nl : string := String (ascii_of_nat 10) EmptyString.

(** Abbreviations for the three field operations the handshake uses. *)
Definition validNo (reg : NvU32) : NvBool :=
  FLD_TEST_DRF NV_PBUS_SW_GLOBAL_EROT_GRANT_VALID
               NV_PBUS_SW_GLOBAL_EROT_GRANT_VALID_NO reg.
Definition allowYes (reg : NvU32) : NvBool :=
  FLD_TEST_DRF NV_PBUS_SW_GLOBAL_EROT_GRANT_ALLOW
               NV_PBUS_SW_GLOBAL_EROT_GRANT_ALLOW_YES reg.
Definition requestSet (reg : NvU32) : NvU32 :=
  FLD_SET_DRF NV_PBUS_SW_GLOBAL_EROT_GRANT_REQUEST
              NV_PBUS_SW_GLOBAL_EROT_GRANT_REQUEST_SET reg.

(** The machine after one more read of the grant register. *)
Definition grantRead (s : State) : State :=
  snd (GPU_REG_RD32 NV_PBUS_SW_GLOBAL_EROT_GRANT s).

Definition kbifPreOsGlobalErotGrantRequest_AD102 : W NV_STATUS := fun w =>
  let status := NV_OK in
  let (reg, w1) := liftM (GPU_REG_RD32 NV_PBUS_SW_GLOBAL_EROT_GRANT) w in
  (* Invalid value suggests that there is no ERoT *)
  if FLD_TEST_DRF NV_PBUS_SW_GLOBAL_EROT_GRANT_VALID
                  NV_PBUS_SW_GLOBAL_EROT_GRANT_VALID_NO reg
  then (status, w1)
  else
    (* Check if grant has already been allowed *)
    let (allowed, w2) :=
      liftM (_kbifPreOsCheckErotGrantAllowed_AD102 NULL) w1 in
    if allowed then (status, w2)
    else
      let reg := FLD_SET_DRF NV_PBUS_SW_GLOBAL_EROT_GRANT_REQUEST
                             NV_PBUS_SW_GLOBAL_EROT_GRANT_REQUEST_SET reg in
      let (_, w3) :=
        liftM (GPU_REG_WR32 NV_PBUS_SW_GLOBAL_EROT_GRANT reg) w2 in
      let (status, w4) :=
        gpuTimeoutCondWait _kbifPreOsCheckErotGrantAllowed_AD102 NULL None w3 in
      if status_is_ok status then (status, w4)
      else
        let (_, w5) :=
          liftM (NV_PRINTF LEVEL_ERROR
                   ("Timed out waiting for preOs to grant access to EEPROM" ++ nl)
                   []) w4 in
        (status, w5).

(** The world in which the poll starts: two reads and the write done. *)
Definition requested (w : World) : World :=
  atClock (logEvent (RegWr NV_PBUS_SW_GLOBAL_EROT_GRANT
                           (requestSet (nextRead (sys w))))
                    (grantRead (grantRead (sys w))))
          (clock w).

Definition reportTimeout (w : World) : World :=
  atClock (logEvent
             (Printf LEVEL_ERROR
                ("Timed out waiting for preOs to grant access to EEPROM" ++ nl)
                [])
             (sys w))
          (clock w).

End Handshake.

(** ** XVE register map set-up *)

(** What the file takes from its surroundings: the two constant tables of
    the chip's register map manual, the HAL query for the size of the MSI-X
    vector control table, and the older implementation used for function 1. *)
Class KernelBifHal : Type := {
  NV_PCFG_XVE_REGISTER_VALID_MAP : list NvU32;
  NV_PCFG_XVE_REGISTER_WR_MAP : list NvU32;
  kbifGetMSIXTableVectorControlSize_HAL : State -> NvU32;
  kbifInitXveRegMap_GM107 : NvU8 -> M NV_STATUS
}.

(** Field assignments on a register map entry. *)
Definition with_nFunc (v : NvU8) (r : KBIF_XVE_REGMAP_REF) :=
  {| nFunc := v; xveRegMapValid := xveRegMapValid r;
     xveRegMapWrite := xveRegMapWrite r;
     numXveRegMapValid := numXveRegMapValid r;
     numXveRegMapWrite := numXveRegMapWrite r;
     bufBootConfigSpace := bufBootConfigSpace r;
     bufMsixTable := bufMsixTable r |}.

Definition with_xveRegMapValid (v : option (list NvU32)) (r : KBIF_XVE_REGMAP_REF) :=
  {| nFunc := nFunc r; xveRegMapValid := v;
     xveRegMapWrite := xveRegMapWrite r;
     numXveRegMapValid := numXveRegMapValid r;
     numXveRegMapWrite := numXveRegMapWrite r;
     bufBootConfigSpace := bufBootConfigSpace r;
     bufMsixTable := bufMsixTable r |}.

Definition with_xveRegMapWrite (v : option (list NvU32)) (r : KBIF_XVE_REGMAP_REF) :=
  {| nFunc := nFunc r; xveRegMapValid := xveRegMapValid r;
     xveRegMapWrite := v;
     numXveRegMapValid := numXveRegMapValid r;
     numXveRegMapWrite := numXveRegMapWrite r;
     bufBootConfigSpace := bufBootConfigSpace r;
     bufMsixTable := bufMsixTable r |}.

Definition with_numXveRegMapValid (v : Z) (r : KBIF_XVE_REGMAP_REF) :=
  {| nFunc := nFunc r; xveRegMapValid := xveRegMapValid r;
     xveRegMapWrite := xveRegMapWrite r;
     numXveRegMapValid := v;
     numXveRegMapWrite := numXveRegMapWrite r;
     bufBootConfigSpace := bufBootConfigSpace r;
     bufMsixTable := bufMsixTable r |}.

Definition with_numXveRegMapWrite (v : Z) (r : KBIF_XVE_REGMAP_REF) :=
  {| nFunc := nFunc r; xveRegMapValid := xveRegMapValid r;
     xveRegMapWrite := xveRegMapWrite r;
     numXveRegMapValid := numXveRegMapValid r;
     numXveRegMapWrite := v;
     bufBootConfigSpace := bufBootConfigSpace r;
     bufMsixTable := bufMsixTable r |}.

Definition with_bufBootConfigSpace (v : pointer) (r : KBIF_XVE_REGMAP_REF) :=
  {| nFunc := nFunc r; xveRegMapValid := xveRegMapValid r;
     xveRegMapWrite := xveRegMapWrite r;
     numXveRegMapValid := numXveRegMapValid r;
     numXveRegMapWrite := numXveRegMapWrite r;
     bufBootConfigSpace := v;
     bufMsixTable := bufMsixTable r |}.

Definition with_bufMsixTable (v : pointer) (r : KBIF_XVE_REGMAP_REF) :=
  {| nFunc := nFunc r; xveRegMapValid := xveRegMapValid r;
     xveRegMapWrite := xveRegMapWrite r;
     numXveRegMapValid := numXveRegMapValid r;
     numXveRegMapWrite := numXveRegMapWrite r;
     bufBootConfigSpace := bufBootConfigSpace r;
     bufMsixTable := v |}.

(** [pKernelBif->xveRegmapRef[0].field = v] *)
Definition updRef0 (f : KBIF_XVE_REGMAP_REF -> KBIF_XVE_REGMAP_REF) : M unit :=
  (k <- getKernelBif ;;
   setKernelBif {| xveRegmapRef_0 := f (xveRegmapRef_0 k);
                   xveRegmapRef_1 := xveRegmapRef_1 k;
                   cacheData_gpuBootConfigSpace := cacheData_gpuBootConfigSpace k |})%M.

Definition NV_ARRAY_ELEMENTS {A} (tbl : list A) : Z := Z.of_nat (List.length tbl).

(** [controlSize * 4 * sizeof(NvU32)]: the first product is taken at type
    [NvU32] and wraps at 32 bits; the second one is taken at the width of
    [sizeof], 64 bits on the supported targets, where it cannot wrap. *)
Definition msixTableBytes (controlSize : NvU32) : Z :=
  wrap32 (controlSize * 4) * sizeof_NvU32.

Section RegMap.

Context {hal : KernelBifHal}.

(* XVE register map for PCIe config space *)
Definition xveRegMapValid_tbl : list NvU32 := NV_PCFG_XVE_REGISTER_VALID_MAP.
Definition xveRegMapWrite_tbl : list NvU32 := NV_PCFG_XVE_REGISTER_WR_MAP.

Definition kbifInitXveRegMap_AD102 (func : NvU8) : M NV_STATUS :=
  (let status := NV_OK in
   if func =? 0 then
     updRef0 (with_nFunc 0) ;;;
     updRef0 (with_xveRegMapValid (Some xveRegMapValid_tbl)) ;;;
     updRef0 (with_xveRegMapWrite (Some xveRegMapWrite_tbl)) ;;;
     updRef0 (with_numXveRegMapValid (NV_ARRAY_ELEMENTS xveRegMapValid_tbl)) ;;;
     updRef0 (with_numXveRegMapWrite (NV_ARRAY_ELEMENTS xveRegMapWrite_tbl)) ;;;
     k <- getKernelBif ;;
     updRef0 (with_bufBootConfigSpace (cacheData_gpuBootConfigSpace k)) ;;;
     (* Each MSIX table entry is 4 NvU32s *)
     controlSize <- (fun s => (kbifGetMSIXTableVectorControlSize_HAL s, s)) ;;
     k <- getKernelBif ;;
     (if is_null (bufMsixTable (xveRegmapRef_0 k))
      then p <- portMemAllocNonPaged (msixTableBytes controlSize) ;;
           updRef0 (with_bufMsixTable p)
      else ret tt) ;;;
     k <- getKernelBif ;;
     (* NV_ASSERT_OR_RETURN(bufMsixTable != NULL, NV_ERR_NO_MEMORY) *)
     if negb (is_null (bufMsixTable (xveRegmapRef_0 k)))
     then ret status
     else emit AssertFailed ;;; ret NV_ERR_NO_MEMORY
   else if func =? 1 then
     (* Init regmap for Fn1 using older HAL *)
     status <- kbifInitXveRegMap_GM107 1 ;;
     ret status
   else
     NV_PRINTF LEVEL_ERROR ("Invalid argument, func: %d." ++ nl) [func] ;;;
     NV_ASSERT false ;;;
     let status := NV_ERR_INVALID_ARGUMENT in
     ret status)%M.

(** The object behind [pKernelBif] once the six assignments to entry 0
    are done; the MSI-X buffer pointer is not among them. *)
Definition populated (k : KernelBif) : KernelBif :=
  {| xveRegmapRef_0 :=
       {| nFunc := 0;
          xveRegMapValid := Some xveRegMapValid_tbl;
          xveRegMapWrite := Some xveRegMapWrite_tbl;
          numXveRegMapValid := NV_ARRAY_ELEMENTS xveRegMapValid_tbl;
          numXveRegMapWrite := NV_ARRAY_ELEMENTS xveRegMapWrite_tbl;
          bufBootConfigSpace := cacheData_gpuBootConfigSpace k;
          bufMsixTable := bufMsixTable (xveRegmapRef_0 k) |};
     xveRegmapRef_1 := xveRegmapRef_1 k;
     cacheData_gpuBootConfigSpace := cacheData_gpuBootConfigSpace k |}.

(** The count the HAL query answers during a call started in [s]. *)
Definition controlSizeAt (s : State) : NvU32 :=
  kbifGetMSIXTableVectorControlSize_HAL
    (snd (setKernelBif (populated (kbif s)) s)).

End RegMap.

(** ** Reading traces *)

(** The register writes of a trace, in order. *)
Fixpoint regWrites (t : list event) : list (Z * NvU32) :=
  match t with
  | [] => []
  | RegWr a v :: t' => (a, v) :: regWrites t'
  | _ :: t' => regWrites t'
  end.

(** The number of times the bounded poll was entered. *)
Fixpoint condWaits (t : list event) : nat :=
  match t with
  | [] => O
  | CondWaitEnter _ :: t' => S (condWaits t')
  | _ :: t' => condWaits t'
  end.

(** The allocation requests of a trace, in order. *)
Fixpoint memAllocSizes (t : list event) : list Z :=
  match t with
  | [] => []
  | MemAlloc sz _ :: t' => sz :: memAllocSizes t'
  | _ :: t' => memAllocSizes t'
  end.

(** ** A concrete configuration, used to run the model *)

Module Sample.

(** VALID is bit 0, REQUEST bit 1, ALLOW bit 2. *)
#[export] Instance layout : ErotGrantLayout := {|
  NV_PBUS_SW_GLOBAL_EROT_GRANT := 0x1578;
  NV_PBUS_SW_GLOBAL_EROT_GRANT_VALID := Field 0 0;
  NV_PBUS_SW_GLOBAL_EROT_GRANT_VALID_NO := 0;
  NV_PBUS_SW_GLOBAL_EROT_GRANT_ALLOW := Field 2 2;
  NV_PBUS_SW_GLOBAL_EROT_GRANT_ALLOW_YES := 1;
  NV_PBUS_SW_GLOBAL_EROT_GRANT_REQUEST := Field 1 1;
  NV_PBUS_SW_GLOBAL_EROT_GRANT_REQUEST_SET := 1
|}.

#[export] Instance timing : TimeoutConfig :=
  {| GPU_TIMEOUT_DEFAULT := {| duration := 10; interval := 3 |} |}.

Definition emptyRef : KBIF_XVE_REGMAP_REF :=
  {| nFunc := 0; xveRegMapValid := None; xveRegMapWrite := None;
     numXveRegMapValid := 0; numXveRegMapWrite := 0;
     bufBootConfigSpace := NULL; bufMsixTable := NULL |}.

Definition kbif0 : KernelBif :=
  {| xveRegmapRef_0 := emptyRef; xveRegmapRef_1 := emptyRef;
     cacheData_gpuBootConfigSpace := 0x7000 |}.

(** A machine whose register reads follow [reads] (and return [dflt]
    once the list is used up) and whose allocator follows [allocs]. *)
Definition machine (reads : list NvU32) (dflt : NvU32)
    (allocs : list pointer) (k : KernelBif) : State :=
  {| regScript := fun n => nth n reads dflt; regReads := O;
     memScript := fun n _ => nth n allocs NULL; memAllocs := O;
     kbif := k; trace := [] |}.

Definition world (reads : list NvU32) (dflt : NvU32) : World :=
  {| sys := machine reads dflt [] kbif0; clock := 100 |}.

(** An older implementation for function 1 that only fills in [nFunc]. *)
Definition gm107 (func : NvU8) : M NV_STATUS :=
  (k <- getKernelBif ;;
   setKernelBif {| xveRegmapRef_0 := xveRegmapRef_0 k;
                   xveRegmapRef_1 := with_nFunc func (xveRegmapRef_1 k);
                   cacheData_gpuBootConfigSpace := cacheData_gpuBootConfigSpace k |} ;;;
   ret NV_OK)%M.

Definition halWith (controlSize : NvU32) : KernelBifHal :=
  {| NV_PCFG_XVE_REGISTER_VALID_MAP := [0xFFFFFFFF; 0x0000000F];
     NV_PCFG_XVE_REGISTER_WR_MAP := [0x0000FF00; 0x00000003; 0];
     kbifGetMSIXTableVectorControlSize_HAL := fun _ => controlSize;
     kbifInitXveRegMap_GM107 := gm107 |}.

#[export] Instance hal : KernelBifHal := halWith 6.

(** Worlds for the paths of the grant request.  With the layout above the
    value 0 has VALID = NO, 1 has VALID = YES and ALLOW = NO, 5 has both
    VALID = YES and ALLOW = YES, and 4 has ALLOW = YES with VALID = NO. *)
Definition w_absent : World := world [0] 0.
Definition w_granted : World := world [5; 5] 5.
Definition w_pending : World := world [1; 1; 1; 5] 5.
Definition w_silent : World := world [] 1.
Definition w_stale : World := world [1; 4] 0.

(** A condition that never holds. *)
Definition never : GpuWaitConditionFunc := fun _ s => (false, s).

Definition T10 : RMTIMEOUT := {| duration := 10; interval := 3 |}.

(** Machines for register map set-up: a fresh object with an allocator
    that succeeds, the same with an allocator that fails, and an object
    that already owns its MSI-X buffer. *)
Definition s_fresh : State := machine [] 0 [0x9000] kbif0.
Definition s_nomem : State := machine [] 0 [] kbif0.
Definition kbif1 : KernelBif :=
  {| xveRegmapRef_0 := with_bufMsixTable 0x9000 emptyRef;
     xveRegmapRef_1 := emptyRef;
     cacheData_gpuBootConfigSpace := 0x7000 |}.
Definition s_owned : State := machine [] 0 [0xA000] kbif1.

End Sample.

(** A machine whose allocator fails once and then hands out a buffer. *)
Definition s_retry : State :=
  Sample.machine [] 0 [NULL; 0xB000] Sample.kbif0.

(** Two worlds whose devices differ in the VALID field of what they
    answer after the first read, and in nothing else the request looks at:
    VALID drops to NO in the first, stays YES in the second. *)
Definition w_valid_drops : World := Sample.world [1; 0; 4] 4.
Definition w_valid_stays : World := Sample.world [1; 1; 5] 5.

(** ** Further observations *)

(** A trace with the values of its register reads blotted out: what was
    done, in order, whatever the device answered. *)
Definition eraseRead (e : event) : event :=
  match e with
  | RegRd a _ => RegRd a 0
  | _ => e
  end.

Definition operations (t : list event) : list event := map eraseRead t.

(** Two machines in step: as many reads done, the same operations so far,
    and devices whose answers from here on agree in what the ALLOW field
    tests as. *)
Definition inStep {layout : ErotGrantLayout} (s s' : State) : Prop :=
  regReads s' = regReads s
  /\ operations (trace s') = operations (trace s)
  /\ forall n, (regReads s <= n)%nat ->
               allowYes (regScript s' n) = allowYes (regScript s n).

(** The addresses of the register accesses of a trace, reads and writes
    alike, in order. *)
Fixpoint regAccesses (t : list event) : list Z :=
  match t with
  | [] => []
  | RegRd a _ :: t' => a :: regAccesses t'
  | RegWr a _ :: t' => a :: regAccesses t'
  | _ :: t' => regAccesses t'
  end.

(** The number of assertion failures in a trace. *)
Fixpoint assertCount (t : list event) : nat :=
  match t with
  | [] => O
  | AssertFailed :: t' => S (assertCount t')
  | _ :: t' => assertCount t'
  end.

(** What neither entry point has any business with when it works on the
    other one's ground: two machines agree on the scripts, on the allocator
    and on the object behind [pKernelBif]. *)
Definition sameObjects (s s' : State) : Prop :=
  regScript s' = regScript s
  /\ memScript s' = memScript s
  /\ memAllocs s' = memAllocs s
  /\ kbif s' = kbif s.

(** The report the grant request makes when its poll fails. *)
Definition timeoutReport : event :=
  Printf LEVEL_ERROR
         ("Timed out waiting for preOs to grant access to EEPROM" ++ nl) [].

(** A field extent that lies within a 32-bit register. *)
Definition fieldOk (f : field) : bool :=
  (0 <=? lo f) && (lo f <=? hi f) && (hi f <=? 31).

(** The number of bits of a field. *)
Definition fieldWidth (f : field) : Z := hi f - lo f + 1.

(** An encoded state that fits the field it is meant for. *)
Definition fitsField (f : field) (c : NvU32) : bool :=
  (0 <=? c) && (c <? 2 ^ fieldWidth f).

(** Two fields that share no bit. *)
Definition fieldsApart (f g : field) : bool :=
  (hi f <? lo g) || (hi g <? lo f).

(** A value of type [NvU32]. *)
Definition isU32 (v : Z) : bool := (0 <=? v) && (v <? 2 ^ 32).

(** A layout of the grant register whose three fields lie within the
    register, with REQUEST apart from VALID and from ALLOW and the state SET
    fitting the REQUEST field. *)
Definition layoutOk {layout : ErotGrantLayout} : bool :=
  fieldOk NV_PBUS_SW_GLOBAL_EROT_GRANT_VALID
  && fieldOk NV_PBUS_SW_GLOBAL_EROT_GRANT_ALLOW
  && fieldOk NV_PBUS_SW_GLOBAL_EROT_GRANT_REQUEST
  && fitsField NV_PBUS_SW_GLOBAL_EROT_GRANT_REQUEST
               NV_PBUS_SW_GLOBAL_EROT_GRANT_REQUEST_SET
  && fieldsApart NV_PBUS_SW_GLOBAL_EROT_GRANT_REQUEST
                 NV_PBUS_SW_GLOBAL_EROT_GRANT_VALID
  && fieldsApart NV_PBUS_SW_GLOBAL_EROT_GRANT_REQUEST
                 NV_PBUS_SW_GLOBAL_EROT_GRANT_ALLOW.

(** * Properties *)

(** ** Traces *)

Lemma regWrites_app t1 t2 : regWrites (t1 ++ t2) = regWrites t1 ++ regWrites t2.
Proof.
  induction t1 as [|e t1 IH]; simpl; [reflexivity|].
  destruct e; simpl; rewrite IH; reflexivity.
Qed.

Lemma condWaits_app t1 t2 : condWaits (t1 ++ t2) = (condWaits t1 + condWaits t2)%nat.
Proof.
  induction t1 as [|e t1 IH]; simpl; [reflexivity|].
  destruct e; simpl; rewrite IH; reflexivity.
Qed.

Lemma memAllocSizes_app t1 t2 :
  memAllocSizes (t1 ++ t2) = memAllocSizes t1 ++ memAllocSizes t2.
Proof.
  induction t1 as [|e t1 IH]; simpl; [reflexivity|].
  destruct e; simpl; rewrite IH; reflexivity.
Qed.

(** ** The bounded poll *)

Section PollProps.

Variables (pCondFunc : GpuWaitConditionFunc) (pCondData : pointer)
          (pause : positive) (deadline : Z).

(** One unfolding of the loop, as the three cases of its body. *)
Lemma pollLoop_true w s' :
  pCondFunc pCondData (sys w) = (true, s') ->
  pollLoop pCondFunc pCondData pause deadline w = (NV_OK, atClock s' (clock w)).
Proof.
  intros E. rewrite pollLoop_equation_1. rewrite E. reflexivity.
Qed.

Lemma pollLoop_expired w s' :
  pCondFunc pCondData (sys w) = (false, s') ->
  deadline <= clock w ->
  pollLoop pCondFunc pCondData pause deadline w
  = (NV_ERR_TIMEOUT, atClock s' (clock w)).
Proof.
  intros E Hd. rewrite pollLoop_equation_1. rewrite E. simpl.
  destruct (Z_le_gt_dec deadline (clock w)); [reflexivity | lia].
Qed.

Lemma pollLoop_again w s' :
  pCondFunc pCondData (sys w) = (false, s') ->
  clock w < deadline ->
  pollLoop pCondFunc pCondData pause deadline w
  = pollLoop pCondFunc pCondData pause deadline
             (atClock s' (clock w + Z.pos pause)).
Proof.
  intros E Hd. rewrite (pollLoop_equation_1 _ _ _ _ w). rewrite E. simpl.
  destruct (Z_le_gt_dec deadline (clock w)); [lia | reflexivity].
Qed.

(** Induction along the iterations of the loop. *)
Lemma pollLoop_induction (P : World -> NV_STATUS * World -> Prop) :
  (forall w s', pCondFunc pCondData (sys w) = (true, s') ->
                P w (NV_OK, atClock s' (clock w))) ->
  (forall w s', pCondFunc pCondData (sys w) = (false, s') ->
                deadline <= clock w ->
                P w (NV_ERR_TIMEOUT, atClock s' (clock w))) ->
  (forall w s' r, pCondFunc pCondData (sys w) = (false, s') ->
                  clock w < deadline ->
                  P (atClock s' (clock w + Z.pos pause)) r -> P w r) ->
  forall w, P w (pollLoop pCondFunc pCondData pause deadline w).
Proof.
  intros Htrue Hexp Hagain w.
  remember (Z.to_nat (deadline - clock w)) as n eqn:Hn.
  revert w Hn.
  induction n as [n IH] using lt_wf_ind; intros w Hn.
  destruct (pCondFunc pCondData (sys w)) as [[|] s'] eqn:E.
  - rewrite (pollLoop_true w s' E). apply Htrue; exact E.
  - destruct (Z_le_gt_dec deadline (clock w)) as [Hd|Hd].
    + rewrite (pollLoop_expired w s' E Hd). apply Hexp; assumption.
    + assert (Hlt : clock w < deadline) by lia.
      rewrite (pollLoop_again w s' E Hlt).
      apply (Hagain w s' _ E Hlt).
      apply (IH (Z.to_nat (deadline - (clock w + Z.pos pause)))).
      * subst n. lia.
      * reflexivity.
Qed.

(** The poll has two outcomes only. *)
Lemma pollLoop_status w :
  fst (pollLoop pCondFunc pCondData pause deadline w) = NV_OK \/
  fst (pollLoop pCondFunc pCondData pause deadline w) = NV_ERR_TIMEOUT.
Proof.
  apply (pollLoop_induction
           (fun _ r => fst r = NV_OK \/ fst r = NV_ERR_TIMEOUT)); simpl; auto.
Qed.

(** Time does not run backwards during a poll ... *)
Lemma pollLoop_clock_mono w :
  clock w <= clock (snd (pollLoop pCondFunc pCondData pause deadline w)).
Proof.
  apply (pollLoop_induction (fun w r => clock w <= clock (snd r)));
    simpl; intros; lia.
Qed.

(** ... and a poll ends less than one pause after its deadline, unless it
    was entered later than that. *)
Lemma pollLoop_clock_bound w :
  clock (snd (pollLoop pCondFunc pCondData pause deadline w))
  <= Z.max (clock w) (deadline + Z.pos pause - 1).
Proof.
  apply (pollLoop_induction
           (fun w r => clock (snd r)
                       <= Z.max (clock w) (deadline + Z.pos pause - 1)));
    simpl; intros; lia.
Qed.

(** A timeout is reported no earlier than the deadline. *)
Lemma pollLoop_timeout_late w :
  fst (pollLoop pCondFunc pCondData pause deadline w) = NV_ERR_TIMEOUT ->
  deadline <= clock (snd (pollLoop pCondFunc pCondData pause deadline w)).
Proof.
  apply (pollLoop_induction
           (fun _ r => fst r = NV_ERR_TIMEOUT -> deadline <= clock (snd r)));
    simpl; intros; auto; discriminate.
Qed.

(** A condition that never holds makes the poll time out. *)
Lemma pollLoop_never w :
  (forall s, fst (pCondFunc pCondData s) = false) ->
  fst (pollLoop pCondFunc pCondData pause deadline w) = NV_ERR_TIMEOUT.
Proof.
  intros Hnever.
  apply (pollLoop_induction (fun _ r => fst r = NV_ERR_TIMEOUT));
    simpl; auto.
  intros w0 s' E. pose proof (Hnever (sys w0)) as F.
  rewrite E in F. discriminate F.
Qed.

(** The loop body runs at most once per unit of time left, and once more:
    with that budget of iterations the loop ends, with the same result. *)
Lemma pollFuel_enough (fuel : nat) w :
  (Z.to_nat (deadline - clock w) < fuel)%nat ->
  pollFuel fuel pCondFunc pCondData pause deadline w
  = Some (pollLoop pCondFunc pCondData pause deadline w).
Proof.
  revert w. induction fuel as [|fuel IH]; intros w Hf; [lia|].
  simpl. destruct (pCondFunc pCondData (sys w)) as [[|] s'] eqn:E.
  - rewrite (pollLoop_true w s' E). reflexivity.
  - destruct (Z_le_gt_dec deadline (clock w)) as [Hd|Hd].
    + rewrite (pollLoop_expired w s' E Hd). reflexivity.
    + assert (Hlt : clock w < deadline) by lia.
      rewrite (pollLoop_again w s' E Hlt). apply IH. simpl. lia.
Qed.

(** The same, for a condition that fails on the states the poll can
    reach: those satisfying an invariant the condition preserves. *)
Lemma pollLoop_never_inv (I : State -> Prop) w :
  (forall s, I s -> fst (pCondFunc pCondData s) = false
                    /\ I (snd (pCondFunc pCondData s))) ->
  I (sys w) ->
  fst (pollLoop pCondFunc pCondData pause deadline w) = NV_ERR_TIMEOUT.
Proof.
  intros Hstep. revert w.
  apply (pollLoop_induction
           (fun w r => I (sys w) -> fst r = NV_ERR_TIMEOUT)); simpl; auto.
  - intros w0 s' E Hi. destruct (Hstep _ Hi) as [F _].
    rewrite E in F. discriminate F.
  - intros w0 s' r E _ IH Hi. apply IH.
    destruct (Hstep _ Hi) as [_ Hi']. rewrite E in Hi'. exact Hi'.
Qed.

End PollProps.

(** ** The eRoT grant handshake *)

Section HandshakeProps.

Context {layout : ErotGrantLayout} {timing : TimeoutConfig}.

Lemma grantRead_trace s :
  trace (grantRead s)
  = trace s ++ [RegRd NV_PBUS_SW_GLOBAL_EROT_GRANT (nextRead s)].
Proof. reflexivity. Qed.

Lemma grantRead_next s : nextRead (grantRead s) = secondRead s.
Proof. reflexivity. Qed.

(** The allowed-check reads the register afresh and looks at ALLOW only. *)
Lemma check_allowed_eq pVoid s :
  _kbifPreOsCheckErotGrantAllowed_AD102 pVoid s
  = (allowYes (nextRead s), grantRead s).
Proof. reflexivity. Qed.

Lemma grantRead_writes s :
  regWrites (trace (grantRead s)) = regWrites (trace s).
Proof. rewrite grantRead_trace, regWrites_app. simpl. apply app_nil_r. Qed.

Lemma grantRead_condWaits s :
  condWaits (trace (grantRead s)) = condWaits (trace s).
Proof. rewrite grantRead_trace, condWaits_app. simpl. lia. Qed.

(** The three paths through the request, each as an equation. *)
Lemma request_absent w :
  validNo (nextRead (sys w)) = true ->
  kbifPreOsGlobalErotGrantRequest_AD102 w
  = (NV_OK, atClock (grantRead (sys w)) (clock w)).
Proof.
  intros Hv. unfold kbifPreOsGlobalErotGrantRequest_AD102, liftM. simpl.
  fold (nextRead (sys w)). fold (validNo (nextRead (sys w))).
  rewrite Hv. reflexivity.
Qed.

Lemma request_granted w :
  validNo (nextRead (sys w)) = false ->
  allowYes (secondRead (sys w)) = true ->
  kbifPreOsGlobalErotGrantRequest_AD102 w
  = (NV_OK, atClock (grantRead (grantRead (sys w))) (clock w)).
Proof.
  intros Hv Ha. unfold kbifPreOsGlobalErotGrantRequest_AD102, liftM. simpl.
  fold (nextRead (sys w)). fold (validNo (nextRead (sys w))).
  rewrite Hv.
  fold (secondRead (sys w)). fold (allowYes (secondRead (sys w))).
  rewrite Ha. reflexivity.
Qed.

Lemma request_pending w :
  validNo (nextRead (sys w)) = false ->
  allowYes (secondRead (sys w)) = false ->
  kbifPreOsGlobalErotGrantRequest_AD102 w
  = let r := gpuTimeoutCondWait _kbifPreOsCheckErotGrantAllowed_AD102
                                NULL None (requested w) in
    if status_is_ok (fst r) then r else (fst r, reportTimeout (snd r)).
Proof.
  intros Hv Ha. unfold kbifPreOsGlobalErotGrantRequest_AD102, liftM. simpl.
  fold (nextRead (sys w)). fold (validNo (nextRead (sys w))).
  rewrite Hv.
  fold (secondRead (sys w)). fold (allowYes (secondRead (sys w))).
  rewrite Ha.
  fold (requestSet (nextRead (sys w))).
  match goal with
  | |- context [gpuTimeoutCondWait _ NULL None ?x] =>
      change x with (requested w)
  end.
  destruct (gpuTimeoutCondWait _ NULL None (requested w)) as [st w4].
  simpl. destruct (status_is_ok st); reflexivity.
Qed.

Lemma gpuTimeoutCondWait_status c d t w :
  fst (gpuTimeoutCondWait c d t w) = NV_OK \/
  fst (gpuTimeoutCondWait c d t w) = NV_ERR_TIMEOUT.
Proof. unfold gpuTimeoutCondWait. apply pollLoop_status. Qed.

(** Polling with the allowed-check adds register reads to the trace and
    nothing else: an observation of traces that ignores reads does not see
    the poll loop. *)
Lemma poll_allowed_unobserved {X} (obs : list event -> X) pVoid pause deadline w :
  (forall t a v, obs (t ++ [RegRd a v]) = obs t) ->
  obs (trace (sys (snd (pollLoop _kbifPreOsCheckErotGrantAllowed_AD102
                                 pVoid pause deadline w))))
  = obs (trace (sys w)).
Proof.
  intros Hobs.
  apply (pollLoop_induction _kbifPreOsCheckErotGrantAllowed_AD102 pVoid
           pause deadline
           (fun w r => obs (trace (sys (snd r))) = obs (trace (sys w)))).
  - intros w0 s' E. rewrite check_allowed_eq in E.
    injection E as _ <-. cbn [snd sys atClock]. rewrite grantRead_trace.
    apply Hobs.
  - intros w0 s' E _. rewrite check_allowed_eq in E.
    injection E as _ <-. cbn [snd sys atClock]. rewrite grantRead_trace.
    apply Hobs.
  - intros w0 s' r E _ IH. rewrite check_allowed_eq in E.
    injection E as _ <-. rewrite IH. cbn [sys atClock].
    rewrite grantRead_trace. apply Hobs.
Qed.

Lemma regWrites_read t a v : regWrites (t ++ [RegRd a v]) = regWrites t.
Proof. rewrite regWrites_app. simpl. apply app_nil_r. Qed.

Lemma condWaits_read t a v : condWaits (t ++ [RegRd a v]) = condWaits t.
Proof. rewrite condWaits_app. simpl. lia. Qed.

Lemma requested_trace w :
  trace (sys (requested w))
  = trace (sys w)
    ++ [RegRd NV_PBUS_SW_GLOBAL_EROT_GRANT (nextRead (sys w));
        RegRd NV_PBUS_SW_GLOBAL_EROT_GRANT (secondRead (sys w));
        RegWr NV_PBUS_SW_GLOBAL_EROT_GRANT (requestSet (nextRead (sys w)))].
Proof. simpl. rewrite <- !app_assoc. reflexivity. Qed.

(** What the request leaves in the trace on its third path. *)
Lemma request_pending_observed w :
  validNo (nextRead (sys w)) = false ->
  allowYes (secondRead (sys w)) = false ->
  regWrites (trace (sys (snd (kbifPreOsGlobalErotGrantRequest_AD102 w))))
  = regWrites (trace (sys w))
    ++ [(NV_PBUS_SW_GLOBAL_EROT_GRANT, requestSet (nextRead (sys w)))]
  /\ condWaits (trace (sys (snd (kbifPreOsGlobalErotGrantRequest_AD102 w))))
     = S (condWaits (trace (sys w))).
Proof.
  intros Hv Ha. rewrite (request_pending w Hv Ha). cbv zeta.
  assert (Hw : regWrites (trace (sys (snd
                 (gpuTimeoutCondWait _kbifPreOsCheckErotGrantAllowed_AD102
                                     NULL None (requested w)))))
               = regWrites (trace (sys w))
                 ++ [(NV_PBUS_SW_GLOBAL_EROT_GRANT,
                      requestSet (nextRead (sys w)))]).
  { unfold gpuTimeoutCondWait.
    rewrite (poll_allowed_unobserved regWrites) by apply regWrites_read.
    cbn [sys atClock pollEntry logEvent trace].
    rewrite requested_trace, !regWrites_app. simpl.
    rewrite app_nil_r. reflexivity. }
  assert (Hc : condWaits (trace (sys (snd
                 (gpuTimeoutCondWait _kbifPreOsCheckErotGrantAllowed_AD102
                                     NULL None (requested w)))))
               = S (condWaits (trace (sys w)))).
  { unfold gpuTimeoutCondWait.
    rewrite (poll_allowed_unobserved condWaits) by apply condWaits_read.
    cbn [sys atClock pollEntry logEvent trace].
    rewrite requested_trace, !condWaits_app. simpl. lia. }
  destruct (status_is_ok _); cbn [snd fst].
  - split; assumption.
  - unfold reportTimeout. cbn [sys atClock logEvent trace].
    rewrite regWrites_app, condWaits_app, Hw, Hc. simpl.
    rewrite app_nil_r. split; [reflexivity | lia].
Qed.

(** C1. When the first read of the grant register does not have
    VALID = NO and the fresh read of the allowed-check does not have
    ALLOW = YES, the request sets REQUEST to SET in the value of the first
    read and writes it back to the grant register (its only register
    write), then enters the bounded poll once, with the condition that
    reads the register again and tests ALLOW for YES.  The request returns
    the status of the poll: NV_OK when the poll succeeds, NV_ERR_TIMEOUT,
    after reporting it, when the poll times out. *)
Theorem erot_request_then_poll (w : World) :
  validNo (nextRead (sys w)) = false ->
  allowYes (secondRead (sys w)) = false ->
  let poll := gpuTimeoutCondWait _kbifPreOsCheckErotGrantAllowed_AD102
                                 NULL None (requested w) in
  let r := kbifPreOsGlobalErotGrantRequest_AD102 w in
  trace (sys (requested w))
    = trace (sys w)
      ++ [RegRd NV_PBUS_SW_GLOBAL_EROT_GRANT (nextRead (sys w));
          RegRd NV_PBUS_SW_GLOBAL_EROT_GRANT (secondRead (sys w));
          RegWr NV_PBUS_SW_GLOBAL_EROT_GRANT
                (FLD_SET_DRF NV_PBUS_SW_GLOBAL_EROT_GRANT_REQUEST
                             NV_PBUS_SW_GLOBAL_EROT_GRANT_REQUEST_SET
                             (nextRead (sys w)))]
  /\ regWrites (trace (sys (snd r)))
     = regWrites (trace (sys w))
       ++ [(NV_PBUS_SW_GLOBAL_EROT_GRANT, requestSet (nextRead (sys w)))]
  /\ condWaits (trace (sys (snd r))) = S (condWaits (trace (sys w)))
  /\ (forall pVoid s,
        _kbifPreOsCheckErotGrantAllowed_AD102 pVoid s
        = (FLD_TEST_DRF NV_PBUS_SW_GLOBAL_EROT_GRANT_ALLOW
                        NV_PBUS_SW_GLOBAL_EROT_GRANT_ALLOW_YES (nextRead s),
           grantRead s))
  /\ fst r = fst poll
  /\ (fst poll = NV_OK -> r = (NV_OK, snd poll))
  /\ (fst poll = NV_ERR_TIMEOUT ->
      r = (NV_ERR_TIMEOUT, reportTimeout (snd poll)))
  /\ (fst poll = NV_OK \/ fst poll = NV_ERR_TIMEOUT).
Proof.
  intros Hv Ha poll r.
  destruct (request_pending_observed w Hv Ha) as [Hw Hc].
  assert (Hr : r = if status_is_ok (fst poll) then poll
                   else (fst poll, reportTimeout (snd poll)))
    by (apply (request_pending w Hv Ha)).
  repeat split.
  - apply requested_trace.
  - exact Hw.
  - exact Hc.
  - rewrite Hr. destruct (status_is_ok (fst poll)); reflexivity.
  - intros Hok. rewrite Hr, Hok. simpl. rewrite <- Hok.
    destruct poll; reflexivity.
  - intros Hto. rewrite Hr, Hto. reflexivity.
  - apply gpuTimeoutCondWait_status.
Qed.

(** C2. When the first read of the grant register has VALID = NO, the
    request returns NV_OK at once: that read is all it does, so no
    register is written (REQUEST in particular), the poll is not entered,
    no time passes and nothing is reported as an error. *)
Theorem erot_no_controller_is_success (w : World) :
  validNo (nextRead (sys w)) = true ->
  let r := kbifPreOsGlobalErotGrantRequest_AD102 w in
  fst r = NV_OK
  /\ trace (sys (snd r))
     = trace (sys w) ++ [RegRd NV_PBUS_SW_GLOBAL_EROT_GRANT (nextRead (sys w))]
  /\ regWrites (trace (sys (snd r))) = regWrites (trace (sys w))
  /\ condWaits (trace (sys (snd r))) = condWaits (trace (sys w))
  /\ clock (snd r) = clock w.
Proof.
  intros Hv r. subst r. rewrite (request_absent w Hv).
  cbn [fst snd sys clock atClock].
  repeat split.
  - apply grantRead_writes.
  - apply grantRead_condWaits.
Qed.

(** C3. When the first read does not have VALID = NO and the read of the
    allowed-check has ALLOW = YES, the request returns NV_OK after these
    two reads: it writes no register and does not enter the poll. *)
Theorem erot_already_granted_is_success (w : World) :
  validNo (nextRead (sys w)) = false ->
  allowYes (secondRead (sys w)) = true ->
  let r := kbifPreOsGlobalErotGrantRequest_AD102 w in
  fst r = NV_OK
  /\ trace (sys (snd r))
     = trace (sys w)
       ++ [RegRd NV_PBUS_SW_GLOBAL_EROT_GRANT (nextRead (sys w));
           RegRd NV_PBUS_SW_GLOBAL_EROT_GRANT (secondRead (sys w))]
  /\ regWrites (trace (sys (snd r))) = regWrites (trace (sys w))
  /\ condWaits (trace (sys (snd r))) = condWaits (trace (sys w))
  /\ clock (snd r) = clock w.
Proof.
  intros Hv Ha r. subst r. rewrite (request_granted w Hv Ha).
  cbn [fst snd sys clock atClock].
  repeat split.
  - rewrite !grantRead_trace, grantRead_next, <- app_assoc. reflexivity.
  - rewrite !grantRead_writes. reflexivity.
  - rewrite !grantRead_condWaits. reflexivity.
Qed.

Lemma gpuTimeoutCondWait_clock c d pTimeout w :
  let t := match pTimeout with
           | Some t => t
           | None => GPU_TIMEOUT_DEFAULT
           end in
  clock w <= clock (snd (gpuTimeoutCondWait c d pTimeout w))
          <= Z.max (clock w) (clock w + duration t + Z.pos (interval t) - 1).
Proof.
  intros t. unfold gpuTimeoutCondWait. fold t. split.
  - apply (pollLoop_clock_mono c d (interval t) (clock w + duration t)
             (pollEntry t w)).
  - apply (pollLoop_clock_bound c d (interval t) (clock w + duration t)
             (pollEntry t w)).
Qed.

(** The allowed-check leaves the read script alone. *)
Lemma check_allowed_script pVoid s :
  regScript (snd (_kbifPreOsCheckErotGrantAllowed_AD102 pVoid s)) = regScript s.
Proof. reflexivity. Qed.

(** C9. The bounded poll returns for every condition: it is a total
    function with two outcomes, its loop body runs at most once per unit of
    its budget and once more, and it ends no later than one pause after its
    deadline.  With a condition that never holds and a budget T it
    reports a timeout, and does so no earlier than T after it was entered.
    Hence the grant request always returns within the default budget plus
    one pause, and when the controller never answers ALLOW = YES it
    returns NV_ERR_TIMEOUT, not before the default budget has elapsed. *)
Theorem bounded_poll_always_returns
    (pCondFunc : GpuWaitConditionFunc) (pCondData : pointer)
    (T : RMTIMEOUT) (w : World) :
  let r := gpuTimeoutCondWait pCondFunc pCondData (Some T) w in
  let h := kbifPreOsGlobalErotGrantRequest_AD102 w in
  let D := GPU_TIMEOUT_DEFAULT in
  (fst r = NV_OK \/ fst r = NV_ERR_TIMEOUT)
  /\ pollFuel (S (Z.to_nat (duration T))) pCondFunc pCondData (interval T)
              (clock w + duration T) (pollEntry T w) = Some r
  /\ clock w <= clock (snd r)
             <= Z.max (clock w) (clock w + duration T + Z.pos (interval T) - 1)
  /\ ((forall s, fst (pCondFunc pCondData s) = false) ->
      fst r = NV_ERR_TIMEOUT /\ clock w + duration T <= clock (snd r))
  /\ clock w <= clock (snd h)
             <= Z.max (clock w) (clock w + duration D + Z.pos (interval D) - 1)
  /\ (validNo (nextRead (sys w)) = false ->
      (forall n, allowYes (regScript (sys w) n) = false) ->
      fst h = NV_ERR_TIMEOUT /\ clock w + duration D <= clock (snd h)).
Proof.
  intros r h D. split; [|split; [|split; [|split; [|split]]]].
  - apply gpuTimeoutCondWait_status.
  - apply pollFuel_enough. cbn [clock pollEntry atClock].
    replace (clock w + duration T - clock w) with (duration T) by lia. lia.
  - apply (gpuTimeoutCondWait_clock pCondFunc pCondData (Some T) w).
  - intros Hnever.
    assert (Hto : fst r = NV_ERR_TIMEOUT)
      by (apply pollLoop_never; exact Hnever).
    split; [exact Hto|].
    apply pollLoop_timeout_late in Hto. exact Hto.
  - subst h. destruct (validNo (nextRead (sys w))) eqn:Hv.
    + rewrite (request_absent w Hv). cbn [snd clock atClock]. lia.
    + destruct (allowYes (secondRead (sys w))) eqn:Ha.
      * rewrite (request_granted w Hv Ha). cbn [snd clock atClock]. lia.
      * rewrite (request_pending w Hv Ha). cbv zeta.
        pose proof (gpuTimeoutCondWait_clock
                      _kbifPreOsCheckErotGrantAllowed_AD102 NULL None
                      (requested w)) as Hb.
        cbv zeta in Hb. fold D in Hb.
        change (clock (requested w)) with (clock w) in Hb.
        destruct (status_is_ok _); cbn [snd fst]; [exact Hb|].
        unfold reportTimeout. cbn [clock atClock]. exact Hb.
  - intros Hv Hnever. subst h.
    rewrite (request_pending w Hv (Hnever _)). cbv zeta.
    assert (Hto : fst (gpuTimeoutCondWait
                         _kbifPreOsCheckErotGrantAllowed_AD102 NULL None
                         (requested w)) = NV_ERR_TIMEOUT).
    { unfold gpuTimeoutCondWait.
      apply (pollLoop_never_inv _ _ _ _
               (fun s => regScript s = regScript (sys w))).
      - intros s Hs. split.
        + rewrite check_allowed_eq. cbn [fst]. unfold nextRead.
          rewrite Hs. apply Hnever.
        + rewrite check_allowed_script. exact Hs.
      - reflexivity. }
    pose proof Hto as Hlate.
    unfold gpuTimeoutCondWait in Hlate.
    apply pollLoop_timeout_late in Hlate.
    fold D in Hlate. change (clock (requested w)) with (clock w) in Hlate.
    rewrite Hto. cbn [status_is_ok fst snd].
    split; [reflexivity|].
    unfold reportTimeout. cbn [clock atClock]. exact Hlate.
Qed.

End HandshakeProps.

(** ** XVE register map set-up *)

Lemma msixTableBytes_exact (controlSize : NvU32) :
  0 <= controlSize < 2 ^ 30 ->
  msixTableBytes controlSize = controlSize * 4 * sizeof_NvU32.
Proof.
  intros H. unfold msixTableBytes, wrap32.
  rewrite Z.mod_small by lia. reflexivity.
Qed.

Lemma is_null_true p : is_null p = true <-> p = NULL.
Proof. unfold is_null. apply Z.eqb_eq. Qed.

Lemma is_null_false p : is_null p = false <-> p <> NULL.
Proof. unfold is_null. apply Z.eqb_neq. Qed.

Section RegMapProps.

Context {hal : KernelBifHal}.

(** The call for function 0, path by path. *)
Lemma init0_present s :
  bufMsixTable (xveRegmapRef_0 (kbif s)) <> NULL ->
  kbifInitXveRegMap_AD102 0 s
  = (NV_OK, snd (setKernelBif (populated (kbif s)) s)).
Proof.
  intros Hp. apply is_null_false in Hp.
  unfold kbifInitXveRegMap_AD102, bind, updRef0, bind, getKernelBif,
    setKernelBif, ret. cbn.
  rewrite Hp. cbn. rewrite Hp. reflexivity.
Qed.

Lemma init0_absent s :
  bufMsixTable (xveRegmapRef_0 (kbif s)) = NULL ->
  let size := msixTableBytes (controlSizeAt s) in
  let p := memScript s (memAllocs s) size in
  let s' :=
    {| regScript := regScript s; regReads := regReads s;
       memScript := memScript s; memAllocs := S (memAllocs s);
       kbif :=
         {| xveRegmapRef_0 :=
              with_bufMsixTable p (xveRegmapRef_0 (populated (kbif s)));
            xveRegmapRef_1 := xveRegmapRef_1 (kbif s);
            cacheData_gpuBootConfigSpace :=
              cacheData_gpuBootConfigSpace (kbif s) |};
       trace := trace s ++ [MemAlloc size p] |} in
  kbifInitXveRegMap_AD102 0 s
  = if is_null p then (NV_ERR_NO_MEMORY, logEvent AssertFailed s')
    else (NV_OK, s').
Proof.
  intros Hp size p s'. apply is_null_true in Hp.
  unfold kbifInitXveRegMap_AD102, bind, updRef0, bind, getKernelBif,
    setKernelBif, ret. cbn.
  rewrite Hp. cbn.
  fold (populated (kbif s)).
  change (memScript s (memAllocs s) _) with p.
  destruct (is_null p); reflexivity.
Qed.

Lemma memAllocSizes_alloc t sz q :
  memAllocSizes (t ++ [MemAlloc sz q]) = memAllocSizes t ++ [sz].
Proof. rewrite memAllocSizes_app. reflexivity. Qed.

Lemma memAllocSizes_assert t :
  memAllocSizes (t ++ [AssertFailed]) = memAllocSizes t.
Proof. rewrite memAllocSizes_app. simpl. apply app_nil_r. Qed.

(** The status of a call for function 0 tells whether the entry has a
    buffer afterwards. *)
Lemma init_regmap_func0_status (s : State) :
  (bufMsixTable (xveRegmapRef_0 (kbif (snd (kbifInitXveRegMap_AD102 0 s))))
   = NULL -> fst (kbifInitXveRegMap_AD102 0 s) = NV_ERR_NO_MEMORY)
  /\ (bufMsixTable (xveRegmapRef_0 (kbif (snd (kbifInitXveRegMap_AD102 0 s))))
      <> NULL -> fst (kbifInitXveRegMap_AD102 0 s) = NV_OK).
Proof.
  destruct (Z.eq_dec (bufMsixTable (xveRegmapRef_0 (kbif s))) NULL)
    as [Hn|Hn].
  - pose proof (init0_absent s Hn) as E. cbv zeta in E. rewrite E.
    destruct (is_null _) eqn:Hp; cbn;
      [apply is_null_true in Hp | apply is_null_false in Hp];
      split; intros Hc; congruence.
  - rewrite (init0_present s Hn). cbn.
    split; intros Hc; [contradiction | reflexivity].
Qed.

(** C4. A call for function 0 sets the entry's function number to 0,
    points it at the two mask tables of the configuration with their element
    counts, and points the boot config-space buffer at the per-device cache.
    It takes the count from the HAL query and asks the allocator for the
    MSI-X buffer only when the entry has none, once, for
    [controlSize * 4 * sizeof(NvU32)] bytes; the count is a number of MSI-X
    table entries, of which a device has at most 2048, and the size is this
    product for every count below 2^30.  The call returns NV_ERR_NO_MEMORY
    exactly when the buffer pointer is null afterwards, and NV_OK
    otherwise. *)
Theorem init_regmap_func0 (s : State) :
  let r := kbifInitXveRegMap_AD102 0 s in
  let before := xveRegmapRef_0 (kbif s) in
  let after := xveRegmapRef_0 (kbif (snd r)) in
  let controlSize := controlSizeAt s in
  (nFunc after = 0
   /\ xveRegMapValid after = Some NV_PCFG_XVE_REGISTER_VALID_MAP
   /\ xveRegMapWrite after = Some NV_PCFG_XVE_REGISTER_WR_MAP
   /\ numXveRegMapValid after
      = Z.of_nat (List.length NV_PCFG_XVE_REGISTER_VALID_MAP)
   /\ numXveRegMapWrite after
      = Z.of_nat (List.length NV_PCFG_XVE_REGISTER_WR_MAP)
   /\ bufBootConfigSpace after = cacheData_gpuBootConfigSpace (kbif s))
  /\ (bufMsixTable before <> NULL ->
      bufMsixTable after = bufMsixTable before
      /\ memAllocs (snd r) = memAllocs s
      /\ memAllocSizes (trace (snd r)) = memAllocSizes (trace s))
  /\ (bufMsixTable before = NULL -> memAllocs (snd r) = S (memAllocs s))
  /\ (bufMsixTable before = NULL -> 0 <= controlSize < 2 ^ 30 ->
      memAllocSizes (trace (snd r))
      = memAllocSizes (trace s) ++ [controlSize * 4 * sizeof_NvU32]
      /\ bufMsixTable after
         = memScript s (memAllocs s) (controlSize * 4 * sizeof_NvU32))
  /\ (fst r = NV_ERR_NO_MEMORY <-> bufMsixTable after = NULL)
  /\ (bufMsixTable after <> NULL -> fst r = NV_OK).
Proof.
  intros r before after controlSize.
  destruct (Z.eq_dec (bufMsixTable before) NULL) as [Hn|Hn].
  - pose proof (init0_absent s Hn) as E. cbv zeta in E.
    fold controlSize in E.
    set (p := memScript s (memAllocs s) (msixTableBytes controlSize)) in *.
    assert (Hsize : 0 <= controlSize < 2 ^ 30 ->
                    memScript s (memAllocs s) (controlSize * 4 * sizeof_NvU32)
                    = p
                    /\ controlSize * 4 * sizeof_NvU32
                       = msixTableBytes controlSize).
    { intros Hc. subst p. rewrite (msixTableBytes_exact _ Hc). split; reflexivity. }
    subst r after.
    destruct (is_null p) eqn:Hp; rewrite E; cbn;
      [apply is_null_true in Hp | apply is_null_false in Hp];
      (refine (conj _ (conj _ (conj _ (conj _ (conj _ _)))));
       [ repeat split
       | intros Hc; contradiction
       | intros _; reflexivity
       | intros _ Hc; destruct (Hsize Hc) as [Hq Hsz]; rewrite Hq, Hsz;
         split; [|reflexivity]
       | split; intros Hc; congruence
       | intros Hc; congruence ]).
    + rewrite memAllocSizes_assert. apply memAllocSizes_alloc.
    + apply memAllocSizes_alloc.
  - pose proof (init0_present s Hn) as E. subst r after. rewrite E. cbn.
    refine (conj _ (conj _ (conj _ (conj _ (conj _ _))))).
    + repeat split.
    + intros _. repeat split.
    + intros Hc; contradiction.
    + intros Hc; contradiction.
    + split; intros Hc; [discriminate Hc | contradiction].
    + intros _; reflexivity.
Qed.

(** C5, as the code has it.  When the call for function 0 returns
    NV_ERR_NO_MEMORY, the entry had no MSI-X buffer and still has none, but
    the assignments made before the allocation stay: entry 0 carries the
    function number, the mask tables, their counts and the boot
    config-space pointer.  Entry 1 and the cache pointer are as before,
    and the one allocation request and the assertion are all that was
    added to the trace. *)
Theorem init_regmap_out_of_memory (s : State) :
  let r := kbifInitXveRegMap_AD102 0 s in
  fst r = NV_ERR_NO_MEMORY ->
  bufMsixTable (xveRegmapRef_0 (kbif s)) = NULL
  /\ kbif (snd r) = populated (kbif s)
  /\ bufMsixTable (xveRegmapRef_0 (kbif (snd r))) = NULL
  /\ xveRegmapRef_1 (kbif (snd r)) = xveRegmapRef_1 (kbif s)
  /\ cacheData_gpuBootConfigSpace (kbif (snd r))
     = cacheData_gpuBootConfigSpace (kbif s)
  /\ trace (snd r)
     = trace s ++ [MemAlloc (msixTableBytes (controlSizeAt s)) NULL;
                   AssertFailed].
Proof.
  intros r Hr.
  destruct (Z.eq_dec (bufMsixTable (xveRegmapRef_0 (kbif s))) NULL)
    as [Hn|Hn].
  - pose proof (init0_absent s Hn) as E. cbv zeta in E.
    set (p := memScript s (memAllocs s) (msixTableBytes (controlSizeAt s)))
      in *.
    subst r. rewrite E in Hr |- *.
    destruct (is_null p) eqn:Hp; [|discriminate Hr].
    apply is_null_true in Hp. cbn.
    refine (conj Hn (conj _ (conj Hp (conj eq_refl (conj eq_refl _))))).
    + unfold populated. rewrite Hp, Hn. reflexivity.
    + rewrite Hp, <- app_assoc. reflexivity.
  - subst r. rewrite (init0_present s Hn) in Hr. discriminate Hr.
Qed.

(** C6. For a function number other than 0 and 1 the call returns
    NV_ERR_INVALID_ARGUMENT, reports the argument and trips an assertion,
    and leaves the whole object, both entries included, as it was. *)
Theorem init_regmap_invalid_function (func : NvU8) (s : State) :
  func <> 0 -> func <> 1 ->
  let r := kbifInitXveRegMap_AD102 func s in
  fst r = NV_ERR_INVALID_ARGUMENT
  /\ kbif (snd r) = kbif s
  /\ xveRegmapRef_0 (kbif (snd r)) = xveRegmapRef_0 (kbif s)
  /\ xveRegmapRef_1 (kbif (snd r)) = xveRegmapRef_1 (kbif s)
  /\ trace (snd r)
     = trace s ++ [Printf LEVEL_ERROR ("Invalid argument, func: %d." ++ nl)
                          [func];
                   AssertFailed].
Proof.
  intros H0 H1 r. subst r. unfold kbifInitXveRegMap_AD102.
  apply Z.eqb_neq in H0, H1. rewrite H0, H1. cbn.
  rewrite <- app_assoc. repeat split.
Qed.

(** C7. A call for function 0 that finds an MSI-X buffer keeps it: the
    pointer is the same afterwards and the allocator is not asked.  So
    after a first call that returned NV_OK a second call neither allocates
    nor changes the buffer. *)
Theorem init_regmap_allocates_once (s : State) :
  let r := kbifInitXveRegMap_AD102 0 s in
  let r2 := kbifInitXveRegMap_AD102 0 (snd r) in
  (bufMsixTable (xveRegmapRef_0 (kbif s)) <> NULL ->
   fst r = NV_OK
   /\ bufMsixTable (xveRegmapRef_0 (kbif (snd r)))
      = bufMsixTable (xveRegmapRef_0 (kbif s))
   /\ memAllocs (snd r) = memAllocs s
   /\ trace (snd r) = trace s)
  /\ (fst r = NV_OK ->
      fst r2 = NV_OK
      /\ bufMsixTable (xveRegmapRef_0 (kbif (snd r2)))
         = bufMsixTable (xveRegmapRef_0 (kbif (snd r)))
      /\ memAllocs (snd r2) = memAllocs (snd r)
      /\ trace (snd r2) = trace (snd r)).
Proof.
  intros r r2.
  assert (Keep : forall s0,
             bufMsixTable (xveRegmapRef_0 (kbif s0)) <> NULL ->
             fst (kbifInitXveRegMap_AD102 0 s0) = NV_OK
             /\ bufMsixTable
                  (xveRegmapRef_0 (kbif (snd (kbifInitXveRegMap_AD102 0 s0))))
                = bufMsixTable (xveRegmapRef_0 (kbif s0))
             /\ memAllocs (snd (kbifInitXveRegMap_AD102 0 s0)) = memAllocs s0
             /\ trace (snd (kbifInitXveRegMap_AD102 0 s0)) = trace s0).
  { intros s0 Hp. rewrite (init0_present s0 Hp). cbn. repeat split. }
  split.
  - apply Keep.
  - intros Hok. apply Keep.
    destruct (init_regmap_func0_status s) as [Hnull _].
    intros Hc. apply Hnull in Hc. fold r in Hc. congruence.
Qed.

(** C8. A call for function 1 is the older implementation called with
    function number 1: same status, same resulting state, nothing added. *)
Theorem init_regmap_function1_delegates (s : State) :
  kbifInitXveRegMap_AD102 1 s = kbifInitXveRegMap_GM107 1 s.
Proof.
  unfold kbifInitXveRegMap_AD102, bind, ret. cbn.
  destruct (kbifInitXveRegMap_GM107 1 s); reflexivity.
Qed.

End RegMapProps.

(** ** Register fields, bit by bit *)

Lemma fieldOk_spec f : fieldOk f = true <-> 0 <= lo f <= hi f /\ hi f <= 31.
Proof. unfold fieldOk. rewrite !andb_true_iff, !Z.leb_le. tauto. Qed.

Lemma fitsField_spec f c : fitsField f c = true <-> 0 <= c < 2 ^ fieldWidth f.
Proof. unfold fitsField. rewrite andb_true_iff, Z.leb_le, Z.ltb_lt. tauto. Qed.

Lemma fieldsApart_spec f g :
  fieldsApart f g = true <-> hi f < lo g \/ hi g < lo f.
Proof. unfold fieldsApart. rewrite orb_true_iff, !Z.ltb_lt. tauto. Qed.

Lemma isU32_spec v : isU32 v = true <-> 0 <= v < 2 ^ 32.
Proof. unfold isU32. rewrite andb_true_iff, Z.leb_le, Z.ltb_lt. tauto. Qed.

Ltac compare_cases :=
  repeat match goal with
         | |- context [?a <=? ?b] => destruct (Z.leb_spec a b)
         | |- context [?a <? ?b] => destruct (Z.ltb_spec a b)
         end;
  cbn [andb orb xorb negb]; try reflexivity; try lia.

(** A number below 2^n has no bit at position n or above. *)
Lemma small_bits v n i :
  0 <= v < 2 ^ n -> 0 <= n <= i -> Z.testbit v i = false.
Proof.
  intros Hv Hi. rewrite <- (Z.mod_small v (2 ^ n)) by lia.
  apply Z.mod_pow2_bits_high. lia.
Qed.

Lemma DRF_MASK_bits f i :
  fieldOk f = true -> 0 <= i ->
  Z.testbit (DRF_MASK f) i = (i <? fieldWidth f).
Proof.
  intros Hf Hi. apply fieldOk_spec in Hf. unfold DRF_MASK, fieldWidth.
  rewrite (Z.mod_small (hi f) 32), (Z.mod_small (lo f) 32) by lia.
  change 0xFFFFFFFF with (Z.ones 32).
  rewrite Z.shiftr_spec, Z.testbit_ones_nonneg by lia.
  compare_cases.
Qed.

Lemma DRF_SHIFTMASK_bits f i :
  fieldOk f = true -> 0 <= i ->
  Z.testbit (DRF_SHIFTMASK f) i = (lo f <=? i) && (i <=? hi f).
Proof.
  intros Hf Hi. pose proof (proj1 (fieldOk_spec f) Hf) as Hb.
  unfold DRF_SHIFTMASK, wrap32, DRF_SHIFT.
  rewrite (Z.mod_small (lo f) 32) by lia.
  destruct (Z.lt_ge_cases i 32) as [Hlt|Hge].
  - rewrite Z.mod_pow2_bits_low, Z.shiftl_spec by lia.
    destruct (Z.lt_ge_cases i (lo f)) as [Hl|Hl].
    + rewrite Z.testbit_neg_r by lia. compare_cases.
    + rewrite DRF_MASK_bits by (assumption || lia). unfold fieldWidth.
      compare_cases.
  - rewrite Z.mod_pow2_bits_high by lia. compare_cases.
Qed.

Lemma DRF_DEF_bits f c i :
  fieldOk f = true -> fitsField f c = true -> 0 <= i ->
  Z.testbit (DRF_DEF f c) i
  = (lo f <=? i) && (i <=? hi f) && Z.testbit c (i - lo f).
Proof.
  intros Hf Hc Hi. pose proof (proj1 (fieldOk_spec f) Hf) as Hb.
  apply fitsField_spec in Hc. unfold fieldWidth in Hc.
  unfold DRF_DEF, wrap32, DRF_SHIFT.
  rewrite (Z.mod_small (lo f) 32) by lia.
  destruct (Z.lt_ge_cases i 32) as [Hlt|Hge].
  - rewrite Z.mod_pow2_bits_low, Z.shiftl_spec by lia.
    destruct (Z.lt_ge_cases i (lo f)) as [Hl|Hl].
    + rewrite Z.testbit_neg_r by lia. compare_cases.
    + destruct (Z.le_gt_cases i (hi f)) as [Hh|Hh].
      * compare_cases.
      * rewrite (small_bits c (hi f - lo f + 1)) by lia. compare_cases.
  - rewrite Z.mod_pow2_bits_high by lia. compare_cases.
Qed.

(** Setting a field, bit by bit: inside the field the bits are those of the
    new state, outside they are those of the old value. *)
Lemma FLD_SET_DRF_bits f c v i :
  fieldOk f = true -> fitsField f c = true -> isU32 v = true -> 0 <= i ->
  Z.testbit (FLD_SET_DRF f c v) i
  = if (lo f <=? i) && (i <=? hi f) then Z.testbit c (i - lo f)
    else Z.testbit v i.
Proof.
  intros Hf Hc Hv Hi. pose proof (proj1 (fieldOk_spec f) Hf) as Hb.
  apply isU32_spec in Hv.
  unfold FLD_SET_DRF, not32.
  rewrite Z.lor_spec, Z.land_spec, Z.lxor_spec.
  rewrite DRF_SHIFTMASK_bits, DRF_DEF_bits by assumption.
  change 0xFFFFFFFF with (Z.ones 32).
  rewrite Z.testbit_ones_nonneg by lia.
  destruct (Z.lt_ge_cases i 32) as [Hlt|Hge].
  - compare_cases; destruct (Z.testbit v i); reflexivity.
  - rewrite (small_bits v 32 i) by lia. compare_cases.
Qed.

Lemma DRF_VAL_bits g x j :
  fieldOk g = true -> 0 <= j ->
  Z.testbit (DRF_VAL g x) j = (j <? fieldWidth g) && Z.testbit x (j + lo g).
Proof.
  intros Hg Hj. pose proof (proj1 (fieldOk_spec g) Hg) as Hb.
  unfold DRF_VAL, DRF_SHIFT. rewrite (Z.mod_small (lo g) 32) by lia.
  rewrite Z.land_spec, Z.shiftr_spec, DRF_MASK_bits by assumption.
  apply andb_comm.
Qed.

(** A field that has been set reads back as the state it was set to. *)
Lemma DRF_VAL_FLD_SET_DRF f c v :
  fieldOk f = true -> fitsField f c = true -> isU32 v = true ->
  DRF_VAL f (FLD_SET_DRF f c v) = c.
Proof.
  intros Hf Hc Hv. pose proof (proj1 (fieldOk_spec f) Hf) as Hb.
  pose proof (proj1 (fitsField_spec f c) Hc) as Hcb.
  apply Z.bits_inj'. intros j Hj.
  rewrite DRF_VAL_bits, FLD_SET_DRF_bits by (assumption || lia).
  unfold fieldWidth in *.
  destruct (Z.lt_ge_cases j (hi f - lo f + 1)) as [Hlt|Hge].
  - replace (j + lo f - lo f) with j by lia. compare_cases.
  - rewrite (small_bits c (hi f - lo f + 1) j) by lia. compare_cases.
Qed.

(** Setting a field leaves every field apart from it as it was. *)
Lemma DRF_VAL_FLD_SET_DRF_apart f g c v :
  fieldOk f = true -> fitsField f c = true -> isU32 v = true ->
  fieldOk g = true -> fieldsApart f g = true ->
  DRF_VAL g (FLD_SET_DRF f c v) = DRF_VAL g v.
Proof.
  intros Hf Hc Hv Hg Ha. pose proof (proj1 (fieldOk_spec f) Hf) as Hb.
  pose proof (proj1 (fieldOk_spec g) Hg) as Hgb.
  apply fieldsApart_spec in Ha.
  apply Z.bits_inj'. intros j Hj.
  rewrite !DRF_VAL_bits, FLD_SET_DRF_bits by (assumption || lia).
  unfold fieldWidth.
  destruct (Z.lt_ge_cases j (hi g - lo g + 1)) as [Hlt|Hge];
    compare_cases.
Qed.

(** ** More on the grant request *)

Lemma regAccesses_app t1 t2 :
  regAccesses (t1 ++ t2) = regAccesses t1 ++ regAccesses t2.
Proof.
  induction t1 as [|e t1 IH]; simpl; [reflexivity|].
  destruct e; simpl; rewrite IH; reflexivity.
Qed.

Lemma assertCount_app t1 t2 :
  assertCount (t1 ++ t2) = (assertCount t1 + assertCount t2)%nat.
Proof.
  induction t1 as [|e t1 IH]; simpl; [reflexivity|].
  destruct e; simpl; rewrite IH; reflexivity.
Qed.

Lemma regAccesses_reads a vs :
  regAccesses (map (RegRd a) vs) = repeat a (List.length vs).
Proof.
  induction vs as [|v vs IH]; simpl; [reflexivity|]. rewrite IH. reflexivity.
Qed.

Lemma sameObjects_refl s : sameObjects s s.
Proof. repeat split. Qed.

Lemma sameObjects_trans s1 s2 s3 :
  sameObjects s1 s2 -> sameObjects s2 s3 -> sameObjects s1 s3.
Proof.
  intros (A1 & B1 & C1 & D1) (A2 & B2 & C2 & D2).
  repeat split; congruence.
Qed.

Section HandshakeMore.

Context {layout : ErotGrantLayout} {timing : TimeoutConfig}.

Lemma grantRead_sameObjects s : sameObjects s (grantRead s).
Proof. repeat split. Qed.

(** A poll with the allowed-check adds a non-empty run of reads of the
    grant register to the trace.  All but the last had ALLOW other than YES,
    and the last one decides the status. *)
Lemma poll_allowed_shape pVoid pause deadline w :
  exists vs v,
    trace (sys (snd (pollLoop _kbifPreOsCheckErotGrantAllowed_AD102
                              pVoid pause deadline w)))
    = trace (sys w) ++ map (RegRd NV_PBUS_SW_GLOBAL_EROT_GRANT) (vs ++ [v])
    /\ Forall (fun x => allowYes x = false) vs
    /\ allowYes v
       = status_is_ok (fst (pollLoop _kbifPreOsCheckErotGrantAllowed_AD102
                                     pVoid pause deadline w)).
Proof.
  apply (pollLoop_induction _kbifPreOsCheckErotGrantAllowed_AD102 pVoid
           pause deadline
           (fun w r =>
              exists vs v,
                trace (sys (snd r))
                = trace (sys w)
                  ++ map (RegRd NV_PBUS_SW_GLOBAL_EROT_GRANT) (vs ++ [v])
                /\ Forall (fun x => allowYes x = false) vs
                /\ allowYes v = status_is_ok (fst r))).
  - intros w0 s' E. rewrite check_allowed_eq in E.
    injection E as Ha <-. exists [], (nextRead (sys w0)).
    cbn [snd fst sys atClock status_is_ok app map].
    split; [apply grantRead_trace|]. split; [constructor | exact Ha].
  - intros w0 s' E _. rewrite check_allowed_eq in E.
    injection E as Ha <-. exists [], (nextRead (sys w0)).
    cbn [snd fst sys atClock status_is_ok app map].
    split; [apply grantRead_trace|]. split; [constructor | exact Ha].
  - intros w0 s' r E _ (vs & v & Ht & Hvs & Hv).
    rewrite check_allowed_eq in E. injection E as Ha <-.
    exists (nextRead (sys w0) :: vs), v.
    split; [|split].
    + rewrite Ht. cbn [sys atClock]. rewrite grantRead_trace.
      rewrite <- app_assoc. reflexivity.
    + constructor; assumption.
    + exact Hv.
Qed.

(** The poll with the allowed-check leaves scripts, allocator and the
    kernel object alone. *)
Lemma poll_allowed_sameObjects pVoid pause deadline w :
  sameObjects (sys w)
    (sys (snd (pollLoop _kbifPreOsCheckErotGrantAllowed_AD102
                        pVoid pause deadline w))).
Proof.
  apply (pollLoop_induction _kbifPreOsCheckErotGrantAllowed_AD102 pVoid
           pause deadline
           (fun w r => sameObjects (sys w) (sys (snd r)))).
  - intros w0 s' E. rewrite check_allowed_eq in E. injection E as _ <-.
    apply grantRead_sameObjects.
  - intros w0 s' E _. rewrite check_allowed_eq in E. injection E as _ <-.
    apply grantRead_sameObjects.
  - intros w0 s' r E _ IH. rewrite check_allowed_eq in E.
    injection E as _ <-.
    apply (sameObjects_trans _ (grantRead (sys w0))); [|exact IH].
    apply grantRead_sameObjects.
Qed.

(** The trace of the request on its third path, event by event. *)
Lemma request_pending_trace w :
  validNo (nextRead (sys w)) = false ->
  allowYes (secondRead (sys w)) = false ->
  exists vs v,
    trace (sys (snd (kbifPreOsGlobalErotGrantRequest_AD102 w)))
    = trace (sys w)
      ++ [RegRd NV_PBUS_SW_GLOBAL_EROT_GRANT (nextRead (sys w));
          RegRd NV_PBUS_SW_GLOBAL_EROT_GRANT (secondRead (sys w));
          RegWr NV_PBUS_SW_GLOBAL_EROT_GRANT (requestSet (nextRead (sys w)));
          CondWaitEnter (duration GPU_TIMEOUT_DEFAULT)]
      ++ map (RegRd NV_PBUS_SW_GLOBAL_EROT_GRANT) (vs ++ [v])
      ++ (if status_is_ok (fst (kbifPreOsGlobalErotGrantRequest_AD102 w))
          then [] else [timeoutReport])
    /\ Forall (fun x => allowYes x = false) vs
    /\ allowYes v
       = status_is_ok (fst (kbifPreOsGlobalErotGrantRequest_AD102 w))
    /\ (fst (kbifPreOsGlobalErotGrantRequest_AD102 w) = NV_OK
        \/ fst (kbifPreOsGlobalErotGrantRequest_AD102 w) = NV_ERR_TIMEOUT).
Proof.
  intros Hv Ha. rewrite (request_pending w Hv Ha). cbv zeta.
  pose proof (gpuTimeoutCondWait_status
                _kbifPreOsCheckErotGrantAllowed_AD102 NULL None (requested w))
    as Hst.
  unfold gpuTimeoutCondWait in *.
  destruct (poll_allowed_shape NULL (interval GPU_TIMEOUT_DEFAULT)
              (clock (requested w) + duration GPU_TIMEOUT_DEFAULT)
              (pollEntry GPU_TIMEOUT_DEFAULT (requested w)))
    as (vs & v & Ht & Hvs & Hlast).
  set (r := pollLoop _ _ _ _ _) in *.
  exists vs, v.
  assert (Hpre : trace (sys (pollEntry GPU_TIMEOUT_DEFAULT (requested w)))
                 = trace (sys w)
                   ++ [RegRd NV_PBUS_SW_GLOBAL_EROT_GRANT (nextRead (sys w));
                       RegRd NV_PBUS_SW_GLOBAL_EROT_GRANT (secondRead (sys w));
                       RegWr NV_PBUS_SW_GLOBAL_EROT_GRANT
                             (requestSet (nextRead (sys w)));
                       CondWaitEnter (duration GPU_TIMEOUT_DEFAULT)]).
  { cbn [pollEntry sys atClock logEvent trace].
    rewrite requested_trace, <- app_assoc. reflexivity. }
  rewrite Hpre in Ht.
  destruct (status_is_ok (fst r)) eqn:Hok; cbn [fst snd].
  - rewrite Hok. split; [|split; [exact Hvs | split; [exact Hlast | exact Hst]]].
    rewrite Ht, app_nil_r, <- app_assoc. reflexivity.
  - rewrite Hok. split; [|split; [exact Hvs | split; [exact Hlast | exact Hst]]].
    unfold reportTimeout. cbn [sys atClock logEvent trace].
    rewrite Ht, <- !app_assoc. reflexivity.
Qed.

(** X1. The grant request has no business with memory or with the kernel
    object: on every path the object behind [pKernelBif], the allocator and
    the scripts are as before, and the trace gains no allocation request
    and no assertion failure. *)
Theorem request_leaves_objects_alone (w : World) :
  let h := kbifPreOsGlobalErotGrantRequest_AD102 w in
  sameObjects (sys w) (sys (snd h))
  /\ memAllocSizes (trace (sys (snd h))) = memAllocSizes (trace (sys w))
  /\ assertCount (trace (sys (snd h))) = assertCount (trace (sys w)).
Proof.
  intros h. subst h.
  destruct (validNo (nextRead (sys w))) eqn:Hv.
  - rewrite (request_absent w Hv). cbn [snd sys atClock].
    rewrite grantRead_trace, memAllocSizes_app, assertCount_app. simpl.
    rewrite app_nil_r, Nat.add_0_r. repeat split.
  - destruct (allowYes (secondRead (sys w))) eqn:Ha.
    + rewrite (request_granted w Hv Ha). cbn [snd sys atClock].
      rewrite !grantRead_trace, !memAllocSizes_app, !assertCount_app. simpl.
      rewrite !app_nil_r, !Nat.add_0_r. repeat split.
    + split.
      * rewrite (request_pending w Hv Ha). cbv zeta.
        assert (Hs : sameObjects (sys w)
                       (sys (snd (gpuTimeoutCondWait
                                    _kbifPreOsCheckErotGrantAllowed_AD102
                                    NULL None (requested w))))).
        { unfold gpuTimeoutCondWait.
          apply (sameObjects_trans _
                   (sys (pollEntry GPU_TIMEOUT_DEFAULT (requested w))));
            [repeat split | apply poll_allowed_sameObjects]. }
        destruct (status_is_ok _); [exact Hs|].
        apply (sameObjects_trans _ _ _ Hs). repeat split.
      * destruct (request_pending_trace w Hv Ha) as (vs & v & Ht & _).
        rewrite Ht, !memAllocSizes_app, !assertCount_app.
        assert (Hm : forall l, memAllocSizes
                         (map (RegRd NV_PBUS_SW_GLOBAL_EROT_GRANT) l) = [])
          by (induction l; simpl; auto).
        assert (Hc : forall l, assertCount
                         (map (RegRd NV_PBUS_SW_GLOBAL_EROT_GRANT) l) = O)
          by (induction l; simpl; auto).
        rewrite Hm, Hc.
        destruct (status_is_ok _); simpl; rewrite ?app_nil_r; split; lia
          || reflexivity.
Qed.

(** X2. The grant request touches one register only: every register access
    it makes, read or write, goes to NV_PBUS_SW_GLOBAL_EROT_GRANT, and there
    is at least one. *)
Theorem request_only_grant_register (w : World) :
  exists n,
    (1 <= n)%nat
    /\ regAccesses (trace (sys (snd (kbifPreOsGlobalErotGrantRequest_AD102 w))))
       = regAccesses (trace (sys w))
         ++ repeat NV_PBUS_SW_GLOBAL_EROT_GRANT n.
Proof.
  destruct (validNo (nextRead (sys w))) eqn:Hv.
  - exists 1%nat. split; [lia|].
    rewrite (request_absent w Hv). cbn [snd sys atClock].
    rewrite grantRead_trace, regAccesses_app. reflexivity.
  - destruct (allowYes (secondRead (sys w))) eqn:Ha.
    + exists 2%nat. split; [lia|].
      rewrite (request_granted w Hv Ha). cbn [snd sys atClock].
      rewrite !grantRead_trace, !regAccesses_app, <- app_assoc. reflexivity.
    + destruct (request_pending_trace w Hv Ha) as (vs & v & Ht & _).
      exists (3 + List.length (vs ++ [v]))%nat. split; [lia|].
      rewrite Ht, !regAccesses_app, regAccesses_reads.
      assert (Hr : regAccesses
                     (if status_is_ok
                           (fst (kbifPreOsGlobalErotGrantRequest_AD102 w))
                      then [] else [timeoutReport]) = [])
        by (destruct (status_is_ok _); reflexivity).
      rewrite Hr, app_nil_r. reflexivity.
Qed.

(** X3. The request returns NV_OK exactly when the last thing it did was a
    read of the grant register that either was its first read and showed
    VALID = NO, or showed ALLOW = YES. *)
Theorem request_ok_iff_last_read_allows (w : World) :
  fst (kbifPreOsGlobalErotGrantRequest_AD102 w) = NV_OK
  <-> exists t v,
        trace (sys (snd (kbifPreOsGlobalErotGrantRequest_AD102 w)))
        = t ++ [RegRd NV_PBUS_SW_GLOBAL_EROT_GRANT v]
        /\ (allowYes v = true
            \/ (t = trace (sys w) /\ validNo v = true)).
Proof.
  destruct (validNo (nextRead (sys w))) eqn:Hv.
  - rewrite (request_absent w Hv). cbn [fst snd sys atClock].
    split; [intros _ | reflexivity].
    exists (trace (sys w)), (nextRead (sys w)).
    split; [apply grantRead_trace | right; split; [reflexivity | exact Hv]].
  - destruct (allowYes (secondRead (sys w))) eqn:Ha.
    + rewrite (request_granted w Hv Ha). cbn [fst snd sys atClock].
      split; [intros _ | reflexivity].
      exists (trace (grantRead (sys w))), (secondRead (sys w)).
      split; [apply grantRead_trace | left; exact Ha].
    + destruct (request_pending_trace w Hv Ha)
        as (vs & v & Ht & _ & Hlast & Hst).
      split.
      * intros Hok. rewrite Hok in Ht, Hlast. cbn [status_is_ok] in Ht, Hlast.
        exists (trace (sys w)
                ++ [RegRd NV_PBUS_SW_GLOBAL_EROT_GRANT (nextRead (sys w));
                    RegRd NV_PBUS_SW_GLOBAL_EROT_GRANT (secondRead (sys w));
                    RegWr NV_PBUS_SW_GLOBAL_EROT_GRANT
                          (requestSet (nextRead (sys w)));
                    CondWaitEnter (duration GPU_TIMEOUT_DEFAULT)]
                ++ map (RegRd NV_PBUS_SW_GLOBAL_EROT_GRANT) vs), v.
        split; [|left; exact Hlast].
        rewrite Ht, app_nil_r, map_app, <- !app_assoc. reflexivity.
      * intros (t & x & Hx & Hcase).
        destruct Hst as [Hok|Hto]; [exact Hok|].
        exfalso. rewrite Hto in Ht. cbn [status_is_ok] in Ht.
        rewrite !app_assoc in Ht. rewrite Ht in Hx.
        apply app_inj_tail in Hx. destruct Hx as [_ Hx]. discriminate Hx.
Qed.

(** X4. The request never fails silently, and never before it has asked:
    when its status is not NV_OK, the status is NV_ERR_TIMEOUT, the first
    read had VALID other than NO, REQUEST = SET has been written and is that
    call's only write, the last register read showed ALLOW other than YES,
    and the error report is the last event of the trace. *)
Theorem request_error_is_reported (w : World) :
  fst (kbifPreOsGlobalErotGrantRequest_AD102 w) <> NV_OK ->
  fst (kbifPreOsGlobalErotGrantRequest_AD102 w) = NV_ERR_TIMEOUT
  /\ validNo (nextRead (sys w)) = false
  /\ regWrites (trace (sys (snd (kbifPreOsGlobalErotGrantRequest_AD102 w))))
     = regWrites (trace (sys w))
       ++ [(NV_PBUS_SW_GLOBAL_EROT_GRANT, requestSet (nextRead (sys w)))]
  /\ exists t v,
       trace (sys (snd (kbifPreOsGlobalErotGrantRequest_AD102 w)))
       = t ++ [RegRd NV_PBUS_SW_GLOBAL_EROT_GRANT v; timeoutReport]
       /\ allowYes v = false.
Proof.
  intros Hne.
  destruct (validNo (nextRead (sys w))) eqn:Hv.
  - rewrite (request_absent w Hv) in Hne. contradiction Hne. reflexivity.
  - destruct (allowYes (secondRead (sys w))) eqn:Ha.
    + rewrite (request_granted w Hv Ha) in Hne. contradiction Hne. reflexivity.
    + destruct (request_pending_trace w Hv Ha)
        as (vs & v & Ht & _ & Hlast & Hst).
      destruct Hst as [Hok|Hto]; [contradiction|].
      split; [exact Hto|]. split; [reflexivity|].
      split; [apply (request_pending_observed w Hv Ha)|].
      rewrite Hto in Ht, Hlast. cbn [status_is_ok] in Ht, Hlast.
      exists (trace (sys w)
              ++ [RegRd NV_PBUS_SW_GLOBAL_EROT_GRANT (nextRead (sys w));
                  RegRd NV_PBUS_SW_GLOBAL_EROT_GRANT (secondRead (sys w));
                  RegWr NV_PBUS_SW_GLOBAL_EROT_GRANT
                        (requestSet (nextRead (sys w)));
                  CondWaitEnter (duration GPU_TIMEOUT_DEFAULT)]
              ++ map (RegRd NV_PBUS_SW_GLOBAL_EROT_GRANT) vs), v.
      split; [|exact Hlast].
      rewrite Ht, map_app, <- !app_assoc. reflexivity.
Qed.

(** X10. With a sound layout, what the request writes is the value of its
    first read with the REQUEST field set to SET and nothing else changed:
    the written value tests REQUEST = SET, every bit outside the REQUEST
    field is the bit that was read, and so VALID and ALLOW in it are as
    they were read. *)
Theorem request_write_changes_request_only (w : World) :
  layoutOk = true ->
  isU32 (nextRead (sys w)) = true ->
  validNo (nextRead (sys w)) = false ->
  allowYes (secondRead (sys w)) = false ->
  exists written,
    regWrites (trace (sys (snd (kbifPreOsGlobalErotGrantRequest_AD102 w))))
    = regWrites (trace (sys w)) ++ [(NV_PBUS_SW_GLOBAL_EROT_GRANT, written)]
    /\ FLD_TEST_DRF NV_PBUS_SW_GLOBAL_EROT_GRANT_REQUEST
                    NV_PBUS_SW_GLOBAL_EROT_GRANT_REQUEST_SET written = true
    /\ (forall i, 0 <= i ->
          i < lo NV_PBUS_SW_GLOBAL_EROT_GRANT_REQUEST
          \/ hi NV_PBUS_SW_GLOBAL_EROT_GRANT_REQUEST < i ->
          Z.testbit written i = Z.testbit (nextRead (sys w)) i)
    /\ validNo written = false
    /\ allowYes written = allowYes (nextRead (sys w)).
Proof.
  intros Hl Hu Hv Ha. unfold layoutOk in Hl.
  rewrite !andb_true_iff in Hl.
  destruct Hl as (((((Hfv & Hfa) & Hfr) & Hfit) & Hav) & Haa).
  exists (requestSet (nextRead (sys w))).
  split; [apply (request_pending_observed w Hv Ha)|].
  split; [|split; [|split]].
  - unfold FLD_TEST_DRF, requestSet.
    rewrite DRF_VAL_FLD_SET_DRF by assumption. apply Z.eqb_refl.
  - intros i Hi Hout. unfold requestSet.
    rewrite FLD_SET_DRF_bits by assumption.
    destruct Hout; compare_cases.
  - rewrite <- Hv. unfold validNo, FLD_TEST_DRF, requestSet.
    rewrite DRF_VAL_FLD_SET_DRF_apart by assumption. reflexivity.
  - unfold allowYes, FLD_TEST_DRF, requestSet.
    rewrite DRF_VAL_FLD_SET_DRF_apart by assumption. reflexivity.
Qed.

Lemma operations_app t1 t2 :
  operations (t1 ++ t2) = operations t1 ++ operations t2.
Proof. apply map_app. Qed.

Lemma regWrites_operations t : regWrites (operations t) = regWrites t.
Proof.
  induction t as [|e t IH]; simpl; [reflexivity|].
  destruct e; simpl; rewrite IH; reflexivity.
Qed.

Lemma inStep_next s s' :
  inStep s s' -> allowYes (nextRead s') = allowYes (nextRead s).
Proof.
  intros (Hr & _ & Ha). unfold nextRead. rewrite Hr. apply Ha. lia.
Qed.

Lemma inStep_grantRead s s' :
  inStep s s' -> inStep (grantRead s) (grantRead s').
Proof.
  intros (Hr & Ho & Ha). split; [|split].
  - cbn. rewrite Hr. reflexivity.
  - rewrite !grantRead_trace, !operations_app, Ho. reflexivity.
  - intros n Hn. cbn in Hn |- *. apply Ha. lia.
Qed.

Lemma inStep_logEvent e s s' :
  inStep s s' -> inStep (logEvent e s) (logEvent e s').
Proof.
  intros (Hr & Ho & Ha). split; [|split].
  - exact Hr.
  - cbn [logEvent trace]. rewrite !operations_app, Ho. reflexivity.
  - exact Ha.
Qed.

(** Two polls with the allowed-check that start in step and at the same
    time run in step: same status, same time, same operations. *)
Lemma poll_allowed_inStep pVoid pause deadline w :
  forall w',
    clock w' = clock w -> inStep (sys w) (sys w') ->
    fst (pollLoop _kbifPreOsCheckErotGrantAllowed_AD102 pVoid pause deadline w')
    = fst (pollLoop _kbifPreOsCheckErotGrantAllowed_AD102 pVoid pause deadline w)
    /\ clock (snd (pollLoop _kbifPreOsCheckErotGrantAllowed_AD102
                            pVoid pause deadline w'))
       = clock (snd (pollLoop _kbifPreOsCheckErotGrantAllowed_AD102
                              pVoid pause deadline w))
    /\ inStep
         (sys (snd (pollLoop _kbifPreOsCheckErotGrantAllowed_AD102
                             pVoid pause deadline w)))
         (sys (snd (pollLoop _kbifPreOsCheckErotGrantAllowed_AD102
                             pVoid pause deadline w'))).
Proof.
  apply (pollLoop_induction _kbifPreOsCheckErotGrantAllowed_AD102 pVoid
           pause deadline
           (fun w r =>
              forall w',
                clock w' = clock w -> inStep (sys w) (sys w') ->
                fst (pollLoop _kbifPreOsCheckErotGrantAllowed_AD102
                              pVoid pause deadline w') = fst r
                /\ clock (snd (pollLoop _kbifPreOsCheckErotGrantAllowed_AD102
                                        pVoid pause deadline w'))
                   = clock (snd r)
                /\ inStep (sys (snd r))
                     (sys (snd (pollLoop _kbifPreOsCheckErotGrantAllowed_AD102
                                         pVoid pause deadline w'))))).
  - intros w0 s' E w' Hc Hs. rewrite check_allowed_eq in E.
    injection E as Ha <-.
    assert (E' : _kbifPreOsCheckErotGrantAllowed_AD102 pVoid (sys w')
                 = (true, grantRead (sys w')))
      by (rewrite check_allowed_eq, (inStep_next _ _ Hs), Ha; reflexivity).
    rewrite (pollLoop_true _ _ _ _ w' _ E'). cbn [fst snd clock sys atClock].
    split; [reflexivity|]. split; [exact Hc|].
    apply inStep_grantRead; exact Hs.
  - intros w0 s' E Hd w' Hc Hs. rewrite check_allowed_eq in E.
    injection E as Ha <-.
    assert (E' : _kbifPreOsCheckErotGrantAllowed_AD102 pVoid (sys w')
                 = (false, grantRead (sys w')))
      by (rewrite check_allowed_eq, (inStep_next _ _ Hs), Ha; reflexivity).
    rewrite (pollLoop_expired _ _ _ _ w' _ E') by lia.
    cbn [fst snd clock sys atClock].
    split; [reflexivity|]. split; [exact Hc|].
    apply inStep_grantRead; exact Hs.
  - intros w0 s' r E Hd IH w' Hc Hs. rewrite check_allowed_eq in E.
    injection E as Ha <-.
    assert (E' : _kbifPreOsCheckErotGrantAllowed_AD102 pVoid (sys w')
                 = (false, grantRead (sys w')))
      by (rewrite check_allowed_eq, (inStep_next _ _ Hs), Ha; reflexivity).
    rewrite (pollLoop_again _ _ _ _ w' _ E') by lia.
    apply IH.
    + cbn [clock atClock]. rewrite Hc. reflexivity.
    + cbn [sys atClock]. apply inStep_grantRead; exact Hs.
Qed.

(** Two requests run in step when they start at the same time, after the
    same operations, read the same first value, and meet devices whose
    later answers agree in what ALLOW tests as. *)
Lemma request_inStep w w' :
  clock w' = clock w ->
  regReads (sys w') = regReads (sys w) ->
  operations (trace (sys w')) = operations (trace (sys w)) ->
  nextRead (sys w') = nextRead (sys w) ->
  (forall n, (regReads (sys w) < n)%nat ->
             allowYes (regScript (sys w') n) = allowYes (regScript (sys w) n)) ->
  fst (kbifPreOsGlobalErotGrantRequest_AD102 w')
  = fst (kbifPreOsGlobalErotGrantRequest_AD102 w)
  /\ clock (snd (kbifPreOsGlobalErotGrantRequest_AD102 w'))
     = clock (snd (kbifPreOsGlobalErotGrantRequest_AD102 w))
  /\ inStep (sys (snd (kbifPreOsGlobalErotGrantRequest_AD102 w)))
            (sys (snd (kbifPreOsGlobalErotGrantRequest_AD102 w'))).
Proof.
  intros Hc Hr Ho Hn Ha.
  assert (H1 : inStep (grantRead (sys w)) (grantRead (sys w'))).
  { split; [|split].
    - cbn. rewrite Hr. reflexivity.
    - rewrite !grantRead_trace, !operations_app, Ho. reflexivity.
    - intros n Hle. cbn in Hle |- *. apply Ha. lia. }
  assert (Hsec : allowYes (secondRead (sys w')) = allowYes (secondRead (sys w))).
  { rewrite <- !grantRead_next. apply inStep_next. exact H1. }
  destruct (validNo (nextRead (sys w))) eqn:Hv.
  - assert (Hv' : validNo (nextRead (sys w')) = true) by (rewrite Hn; exact Hv).
    rewrite (request_absent w Hv), (request_absent w' Hv').
    cbn [fst snd clock sys atClock]. repeat split; assumption || apply H1.
  - assert (Hv' : validNo (nextRead (sys w')) = false) by (rewrite Hn; exact Hv).
    destruct (allowYes (secondRead (sys w))) eqn:Hal.
    + rewrite (request_granted w Hv Hal), (request_granted w' Hv' Hsec).
      cbn [fst snd clock sys atClock].
      split; [reflexivity|]. split; [exact Hc|].
      apply inStep_grantRead. exact H1.
    + rewrite (request_pending w Hv Hal), (request_pending w' Hv' Hsec).
      cbv zeta. unfold gpuTimeoutCondWait.
      assert (H3 : inStep (sys (pollEntry GPU_TIMEOUT_DEFAULT (requested w)))
                          (sys (pollEntry GPU_TIMEOUT_DEFAULT (requested w')))).
      { cbn [pollEntry requested sys atClock]. rewrite Hn.
        apply inStep_logEvent, inStep_logEvent, inStep_grantRead. exact H1. }
      change (clock (requested w')) with (clock w').
      change (clock (requested w)) with (clock w).
      rewrite Hc.
      destruct (poll_allowed_inStep NULL (interval GPU_TIMEOUT_DEFAULT)
                  (clock w + duration GPU_TIMEOUT_DEFAULT)
                  (pollEntry GPU_TIMEOUT_DEFAULT (requested w))
                  (pollEntry GPU_TIMEOUT_DEFAULT (requested w'))
                  Hc H3) as (Hst & Hck & Hin).
      rewrite Hst.
      destruct (status_is_ok _); cbn [fst snd].
      * split; [exact Hst|]. split; [exact Hck | exact Hin].
      * split; [reflexivity|]. unfold reportTimeout.
        cbn [clock sys atClock]. split; [exact Hck|].
        apply inStep_logEvent. exact Hin.
Qed.

(** C10. VALID is tested on the first read only; from then on the request
    goes by ALLOW alone.  When the first read has VALID other than NO the
    allowed-check does read the register afresh, and if that read has
    ALLOW = YES the request returns NV_OK after these two reads and without
    a write, whatever VALID is in the second value; if the first read has
    VALID = NO that one read is all.  When the fresh read has ALLOW other
    than YES the request writes and polls, every poll check is one more
    read, and the status is NV_OK exactly when the last of them has
    ALLOW = YES.  And two runs that read the same first value from devices
    whose later answers agree in what ALLOW tests as are alike in status,
    time, operations and writes, however VALID differs in those answers. *)
Theorem erot_valid_tested_once (w : World) :
  let r := kbifPreOsGlobalErotGrantRequest_AD102 w in
  (allowYes (secondRead (sys w)) = true ->
   fst r = NV_OK
   /\ trace (sys (snd r))
      = trace (sys w)
        ++ RegRd NV_PBUS_SW_GLOBAL_EROT_GRANT (nextRead (sys w))
           :: (if validNo (nextRead (sys w)) then []
               else [RegRd NV_PBUS_SW_GLOBAL_EROT_GRANT (secondRead (sys w))])
   /\ regWrites (trace (sys (snd r))) = regWrites (trace (sys w)))
  /\ (validNo (nextRead (sys w)) = false ->
      allowYes (secondRead (sys w)) = false ->
      exists vs v,
        trace (sys (snd r))
        = trace (sys w)
          ++ [RegRd NV_PBUS_SW_GLOBAL_EROT_GRANT (nextRead (sys w));
              RegRd NV_PBUS_SW_GLOBAL_EROT_GRANT (secondRead (sys w));
              RegWr NV_PBUS_SW_GLOBAL_EROT_GRANT
                    (requestSet (nextRead (sys w)));
              CondWaitEnter (duration GPU_TIMEOUT_DEFAULT)]
          ++ map (RegRd NV_PBUS_SW_GLOBAL_EROT_GRANT) (vs ++ [v])
          ++ (if status_is_ok (fst r) then [] else [timeoutReport])
        /\ Forall (fun x => allowYes x = false) vs
        /\ allowYes v = status_is_ok (fst r))
  /\ (forall w',
        clock w' = clock w ->
        regReads (sys w') = regReads (sys w) ->
        trace (sys w') = trace (sys w) ->
        nextRead (sys w') = nextRead (sys w) ->
        (forall n, (regReads (sys w) < n)%nat ->
                   allowYes (regScript (sys w') n)
                   = allowYes (regScript (sys w) n)) ->
        let r' := kbifPreOsGlobalErotGrantRequest_AD102 w' in
        fst r' = fst r
        /\ clock (snd r') = clock (snd r)
        /\ regReads (sys (snd r')) = regReads (sys (snd r))
        /\ operations (trace (sys (snd r'))) = operations (trace (sys (snd r)))
        /\ regWrites (trace (sys (snd r'))) = regWrites (trace (sys (snd r)))).
Proof.
  intros r. subst r. split; [|split].
  - intros Ha. destruct (validNo (nextRead (sys w))) eqn:Hv.
    + rewrite (request_absent w Hv). cbn [fst snd sys atClock].
      split; [reflexivity|]. split; [apply grantRead_trace|].
      apply grantRead_writes.
    + rewrite (request_granted w Hv Ha). cbn [fst snd sys atClock].
      split; [reflexivity|]. split.
      * rewrite !grantRead_trace, grantRead_next, <- app_assoc. reflexivity.
      * rewrite !grantRead_writes. reflexivity.
  - intros Hv Ha.
    destruct (request_pending_trace w Hv Ha) as (vs & v & Ht & Hvs & Hlast & _).
    exists vs, v. split; [exact Ht|]. split; [exact Hvs | exact Hlast].
  - intros w' Hc Hr Ht Hn Ha r'. subst r'.
    assert (Ho : operations (trace (sys w')) = operations (trace (sys w)))
      by (rewrite Ht; reflexivity).
    destruct (request_inStep w w' Hc Hr Ho Hn Ha) as (Hst & Hck & Hreads & Hops & _).
    split; [exact Hst|]. split; [exact Hck|]. split; [exact Hreads|].
    split; [exact Hops|].
    rewrite <- (regWrites_operations (trace (sys (snd _)))), Hops.
    apply regWrites_operations.
Qed.

End HandshakeMore.

(** ** More on the register map set-up *)

(** X8. The size asked of the allocator is 16 bytes, one entry of four
    [NvU32]s, times the count reduced modulo 2^30: always a whole number of
    entries, and below 2^34 bytes whatever the count. *)
Theorem msixTableBytes_closed_form (controlSize : NvU32) :
  msixTableBytes controlSize = 16 * (controlSize mod 2 ^ 30)
  /\ 0 <= msixTableBytes controlSize < 2 ^ 34
  /\ msixTableBytes controlSize mod 16 = 0.
Proof.
  assert (E : msixTableBytes controlSize = 16 * (controlSize mod 2 ^ 30)).
  { unfold msixTableBytes, wrap32, sizeof_NvU32.
    change (2 ^ 32) with (2 ^ 30 * 4).
    rewrite Z.mul_mod_distr_r by lia. lia. }
  rewrite E.
  pose proof (Z.mod_pos_bound controlSize (2 ^ 30) ltac:(lia)) as B.
  split; [reflexivity|]. split; [lia|].
  rewrite Z.mul_comm. apply Z.mod_mul. lia.
Qed.

Section RegMapMore.

Context {hal : KernelBifHal}.

(** X5. Set-up of function 0 is idempotent: after a call that returned
    NV_OK, a second call returns NV_OK and leaves the whole machine state,
    trace included, exactly as the first call left it. *)
Theorem init_regmap_idempotent (s : State) :
  fst (kbifInitXveRegMap_AD102 0 s) = NV_OK ->
  kbifInitXveRegMap_AD102 0 (snd (kbifInitXveRegMap_AD102 0 s))
  = (NV_OK, snd (kbifInitXveRegMap_AD102 0 s)).
Proof.
  intros Hok.
  destruct (Z.eq_dec (bufMsixTable (xveRegmapRef_0 (kbif s))) NULL)
    as [Hn|Hn].
  - pose proof (init0_absent s Hn) as E. cbv zeta in E.
    rewrite E in Hok |- *.
    destruct (is_null _) eqn:Hp; [discriminate Hok|].
    apply is_null_false in Hp. cbn [snd].
    rewrite init0_present by exact Hp. reflexivity.
  - rewrite (init0_present s Hn). cbn [snd].
    rewrite init0_present by exact Hn. reflexivity.
Qed.

(** X6. Whatever the function number, as long as it is not 1, the call
    stays on its own ground: entry 1 and the cache pointer are untouched,
    no register is read or written, and the allocator is asked at most
    once. *)
Theorem init_regmap_frame (func : NvU8) (s : State) :
  func <> 1 ->
  let r := kbifInitXveRegMap_AD102 func s in
  xveRegmapRef_1 (kbif (snd r)) = xveRegmapRef_1 (kbif s)
  /\ cacheData_gpuBootConfigSpace (kbif (snd r))
     = cacheData_gpuBootConfigSpace (kbif s)
  /\ regReads (snd r) = regReads s
  /\ regAccesses (trace (snd r)) = regAccesses (trace s)
  /\ (memAllocs s <= memAllocs (snd r) <= S (memAllocs s))%nat.
Proof.
  intros H1 r. subst r.
  destruct (Z.eq_dec func 0) as [->|H0].
  - destruct (Z.eq_dec (bufMsixTable (xveRegmapRef_0 (kbif s))) NULL)
      as [Hn|Hn].
    + pose proof (init0_absent s Hn) as E. cbv zeta in E. rewrite E.
      destruct (is_null _); cbn [snd kbif logEvent xveRegmapRef_1
                                 cacheData_gpuBootConfigSpace regReads
                                 memAllocs trace];
        rewrite ?regAccesses_app; simpl; rewrite ?app_nil_r;
        repeat split; lia.
    + rewrite (init0_present s Hn). cbn. repeat split; lia.
  - unfold kbifInitXveRegMap_AD102.
    apply Z.eqb_neq in H0, H1. rewrite H0, H1. cbn.
    rewrite !regAccesses_app. simpl. rewrite !app_nil_r.
    repeat split; lia.
Qed.

(** The machine after a call for function 0 that failed. *)
Lemma init0_failed s :
  fst (kbifInitXveRegMap_AD102 0 s) = NV_ERR_NO_MEMORY ->
  bufMsixTable (xveRegmapRef_0 (kbif s)) = NULL
  /\ kbif (snd (kbifInitXveRegMap_AD102 0 s)) = populated (kbif s)
  /\ memScript (snd (kbifInitXveRegMap_AD102 0 s)) = memScript s
  /\ memAllocs (snd (kbifInitXveRegMap_AD102 0 s)) = S (memAllocs s)
  /\ trace (snd (kbifInitXveRegMap_AD102 0 s))
     = trace s ++ [MemAlloc (msixTableBytes (controlSizeAt s)) NULL;
                   AssertFailed].
Proof.
  intros Hr.
  destruct (Z.eq_dec (bufMsixTable (xveRegmapRef_0 (kbif s))) NULL)
    as [Hn|Hn].
  - pose proof (init0_absent s Hn) as E. cbv zeta in E.
    rewrite E in Hr |- *.
    destruct (is_null _) eqn:Hp; [|discriminate Hr].
    apply is_null_true in Hp. cbn.
    split; [exact Hn|]. split; [|split; [reflexivity|split; [reflexivity|]]].
    + unfold populated. rewrite Hp, Hn. reflexivity.
    + rewrite Hp, <- app_assoc. reflexivity.
  - rewrite (init0_present s Hn) in Hr. discriminate Hr.
Qed.

(** X7. A set-up that failed for lack of memory can be tried again: the
    next call asks the allocator once more, and when the answer is a buffer
    the call returns NV_OK with entry 0 as a call that succeeded at once
    would have left it.  When the answer is null again it fails again. *)
Theorem init_regmap_retry (s : State) :
  let r1 := kbifInitXveRegMap_AD102 0 s in
  let r2 := kbifInitXveRegMap_AD102 0 (snd r1) in
  let size2 := msixTableBytes (controlSizeAt (snd r1)) in
  let p2 := memScript s (S (memAllocs s)) size2 in
  fst r1 = NV_ERR_NO_MEMORY ->
  memAllocSizes (trace (snd r2))
  = memAllocSizes (trace s) ++ [msixTableBytes (controlSizeAt s); size2]
  /\ xveRegmapRef_0 (kbif (snd r2))
     = with_bufMsixTable p2 (xveRegmapRef_0 (populated (kbif s)))
  /\ (p2 <> NULL -> fst r2 = NV_OK)
  /\ (p2 = NULL -> fst r2 = NV_ERR_NO_MEMORY).
Proof.
  intros r1 r2 size2 p2 Hfail.
  destruct (init0_failed s Hfail) as (Hn & Hk & Hms & Hma & Htr).
  assert (Hbuf : bufMsixTable (xveRegmapRef_0 (kbif (snd r1))) = NULL)
    by (subst r1; rewrite Hk; exact Hn).
  pose proof (init0_absent (snd r1) Hbuf) as E. cbv zeta in E.
  fold size2 in E. fold r1 in Hms, Hma, Hk, Htr.
  rewrite Hms, Hma in E. fold p2 in E. fold r2 in E.
  destruct (is_null p2) eqn:Hp; rewrite E;
    [apply is_null_true in Hp | apply is_null_false in Hp];
    cbn [fst snd kbif logEvent trace xveRegmapRef_0];
    rewrite Htr, Hk;
    rewrite ?memAllocSizes_app; cbn [memAllocSizes app];
    rewrite ?app_nil_r;
    (split; [rewrite <- app_assoc; reflexivity|]);
    (split; [reflexivity|]);
    split; intros Hc; congruence.
Qed.

(** X9. Unless the function number is 1, the call has three outcomes and
    every failure trips exactly one assertion: the status is NV_OK with no
    assertion, or NV_ERR_NO_MEMORY (function 0 only) or
    NV_ERR_INVALID_ARGUMENT (any other number) with one. *)
Theorem init_regmap_failure_asserts (func : NvU8) (s : State) :
  func <> 1 ->
  let r := kbifInitXveRegMap_AD102 func s in
  (fst r = NV_OK \/ fst r = NV_ERR_NO_MEMORY \/ fst r = NV_ERR_INVALID_ARGUMENT)
  /\ (fst r = NV_ERR_INVALID_ARGUMENT <-> func <> 0)
  /\ assertCount (trace (snd r))
     = (assertCount (trace s) + if status_is_ok (fst r) then 0 else 1)%nat.
Proof.
  intros H1 r. subst r.
  destruct (Z.eq_dec func 0) as [->|H0].
  - destruct (Z.eq_dec (bufMsixTable (xveRegmapRef_0 (kbif s))) NULL)
      as [Hn|Hn].
    + pose proof (init0_absent s Hn) as E. cbv zeta in E. rewrite E.
      destruct (is_null _); cbn [fst snd logEvent trace status_is_ok];
        rewrite ?assertCount_app; simpl;
        (split; [auto|]); (split; [split; intros Hc; [discriminate Hc | lia]|]);
        lia.
    + rewrite (init0_present s Hn). cbn.
      split; [auto|]. split; [split; intros Hc; [discriminate Hc | lia]|].
      lia.
  - unfold kbifInitXveRegMap_AD102.
    pose proof H0 as H0'. pose proof H1 as H1'.
    apply Z.eqb_neq in H0', H1'. rewrite H0', H1'. cbn.
    rewrite !assertCount_app. simpl.
    split; [auto|]. split; [split; auto|]. lia.
Qed.

End RegMapMore.

(** ** The statements at work on the sample configuration *)

#[local] Existing Instances Sample.layout Sample.timing Sample.hal.

Lemma erot_request_then_poll_witness :
  validNo (nextRead (sys Sample.w_pending)) = false
  /\ allowYes (secondRead (sys Sample.w_pending)) = false
  /\ regWrites (trace (sys (snd (kbifPreOsGlobalErotGrantRequest_AD102
                                   Sample.w_pending))))
     = [(NV_PBUS_SW_GLOBAL_EROT_GRANT, 3)]
  /\ fst (kbifPreOsGlobalErotGrantRequest_AD102 Sample.w_pending)
     = fst (gpuTimeoutCondWait _kbifPreOsCheckErotGrantAllowed_AD102 NULL None
              (requested Sample.w_pending)).
Proof.
  pose proof (erot_request_then_poll (layout := Sample.layout)
                (timing := Sample.timing) Sample.w_pending
                eq_refl eq_refl) as H.
  cbv zeta in H.
  destruct H as (_ & Hw & _ & _ & Hs & _).
  split; [reflexivity|]. split; [reflexivity|].
  split; [exact Hw | exact Hs].
Defined.

Lemma erot_no_controller_is_success_witness :
  validNo (nextRead (sys Sample.w_absent)) = true
  /\ fst (kbifPreOsGlobalErotGrantRequest_AD102 Sample.w_absent) = NV_OK
  /\ regWrites (trace (sys (snd (kbifPreOsGlobalErotGrantRequest_AD102
                                   Sample.w_absent)))) = [].
Proof.
  pose proof (erot_no_controller_is_success (layout := Sample.layout)
                (timing := Sample.timing) Sample.w_absent eq_refl) as H.
  cbv zeta in H. destruct H as (Hs & _ & Hw & _).
  split; [reflexivity|]. split; [exact Hs | exact Hw].
Defined.

Lemma erot_already_granted_is_success_witness :
  validNo (nextRead (sys Sample.w_granted)) = false
  /\ allowYes (secondRead (sys Sample.w_granted)) = true
  /\ fst (kbifPreOsGlobalErotGrantRequest_AD102 Sample.w_granted) = NV_OK
  /\ regWrites (trace (sys (snd (kbifPreOsGlobalErotGrantRequest_AD102
                                   Sample.w_granted)))) = []
  /\ condWaits (trace (sys (snd (kbifPreOsGlobalErotGrantRequest_AD102
                                   Sample.w_granted)))) = O.
Proof.
  pose proof (erot_already_granted_is_success (layout := Sample.layout)
                (timing := Sample.timing) Sample.w_granted
                eq_refl eq_refl) as H.
  cbv zeta in H. destruct H as (Hs & _ & Hw & Hc & _).
  split; [reflexivity|]. split; [reflexivity|].
  split; [exact Hs|]. split; [exact Hw | exact Hc].
Defined.

Lemma later_reads_allow_alike (n : nat) :
  (regReads (sys w_valid_drops) < n)%nat ->
  allowYes (regScript (sys w_valid_stays) n)
  = allowYes (regScript (sys w_valid_drops) n).
Proof.
  intros Hn. destruct n as [|[|[|[|n]]]]; [inversion Hn | reflexivity ..].
Qed.

Lemma erot_valid_tested_once_witness :
  allowYes (secondRead (sys Sample.w_stale)) = true
  /\ validNo (secondRead (sys Sample.w_stale)) = true
  /\ trace (sys (snd (kbifPreOsGlobalErotGrantRequest_AD102 Sample.w_stale)))
     = [RegRd NV_PBUS_SW_GLOBAL_EROT_GRANT 1;
        RegRd NV_PBUS_SW_GLOBAL_EROT_GRANT 4]
  /\ fst (kbifPreOsGlobalErotGrantRequest_AD102 Sample.w_stale) = NV_OK
  /\ validNo (secondRead (sys w_valid_drops)) = true
  /\ validNo (secondRead (sys w_valid_stays)) = false
  /\ fst (kbifPreOsGlobalErotGrantRequest_AD102 w_valid_stays)
     = fst (kbifPreOsGlobalErotGrantRequest_AD102 w_valid_drops)
  /\ regWrites
       (trace (sys (snd (kbifPreOsGlobalErotGrantRequest_AD102 w_valid_stays))))
     = regWrites
         (trace (sys (snd (kbifPreOsGlobalErotGrantRequest_AD102
                             w_valid_drops)))).
Proof.
  pose proof (erot_valid_tested_once (layout := Sample.layout)
                (timing := Sample.timing) Sample.w_stale) as H.
  pose proof (erot_valid_tested_once (layout := Sample.layout)
                (timing := Sample.timing) w_valid_drops) as H'.
  cbv zeta in H, H'.
  destruct H as (Hgranted & _ & _). destruct H' as (_ & _ & Halike).
  destruct (Hgranted eq_refl) as (Hs & Ht & _).
  destruct (Halike w_valid_stays eq_refl eq_refl eq_refl eq_refl
              later_reads_allow_alike) as (Hst & _ & _ & _ & Hw).
  split; [reflexivity|]. split; [reflexivity|].
  split; [exact Ht|]. split; [exact Hs|].
  split; [reflexivity|]. split; [reflexivity|].
  split; [exact Hst | exact Hw].
Defined.

Lemma silent_never_allows (n : nat) :
  allowYes (regScript (sys Sample.w_silent) n) = false.
Proof. destruct n; reflexivity. Qed.

Lemma bounded_poll_always_returns_witness :
  (forall s, fst (Sample.never NULL s) = false)
  /\ validNo (nextRead (sys Sample.w_silent)) = false
  /\ (forall n, allowYes (regScript (sys Sample.w_silent) n) = false)
  /\ fst (gpuTimeoutCondWait Sample.never NULL (Some Sample.T10)
            Sample.w_silent) = NV_ERR_TIMEOUT
  /\ clock Sample.w_silent + 10
     <= clock (snd (gpuTimeoutCondWait Sample.never NULL (Some Sample.T10)
                      Sample.w_silent))
  /\ fst (kbifPreOsGlobalErotGrantRequest_AD102 Sample.w_silent)
     = NV_ERR_TIMEOUT
  /\ clock (snd (kbifPreOsGlobalErotGrantRequest_AD102 Sample.w_silent))
     <= clock Sample.w_silent + 12.
Proof.
  pose proof (bounded_poll_always_returns (layout := Sample.layout)
                (timing := Sample.timing) Sample.never NULL Sample.T10
                Sample.w_silent) as H.
  cbv zeta in H.
  destruct H as (_ & _ & _ & Hpoll & Hbound & Hreq).
  destruct (Hpoll (fun s => eq_refl)) as [Hp1 Hp2].
  destruct (Hreq eq_refl silent_never_allows) as [Hr1 _].
  split; [intros s; reflexivity|]. split; [reflexivity|].
  split; [exact silent_never_allows|].
  split; [exact Hp1|]. split; [exact Hp2|]. split; [exact Hr1|].
  exact (proj2 Hbound).
Defined.

Lemma init_regmap_func0_witness :
  bufMsixTable (xveRegmapRef_0 (kbif Sample.s_fresh)) = NULL
  /\ 0 <= controlSizeAt Sample.s_fresh < 2 ^ 30
  /\ bufMsixTable (xveRegmapRef_0 (kbif (snd (kbifInitXveRegMap_AD102 0
                                                 Sample.s_fresh)))) <> NULL
  /\ memAllocSizes (trace (snd (kbifInitXveRegMap_AD102 0 Sample.s_fresh)))
     = [6 * 4 * sizeof_NvU32]
  /\ memAllocs (snd (kbifInitXveRegMap_AD102 0 Sample.s_fresh)) = 1%nat
  /\ fst (kbifInitXveRegMap_AD102 0 Sample.s_fresh) = NV_OK.
Proof.
  pose proof (init_regmap_func0 (hal := Sample.hal) Sample.s_fresh) as H.
  cbv zeta in H.
  destruct H as (_ & _ & Hcount & Hfresh & _ & Hok).
  assert (Hrange : 0 <= controlSizeAt Sample.s_fresh < 2 ^ 30)
    by (split; [discriminate | reflexivity]).
  assert (Hbuf : bufMsixTable
                   (xveRegmapRef_0
                      (kbif (snd (kbifInitXveRegMap_AD102 0 Sample.s_fresh))))
                 <> NULL) by discriminate.
  split; [reflexivity|]. split; [exact Hrange|]. split; [exact Hbuf|].
  split; [exact (proj1 (Hfresh eq_refl Hrange))|].
  split; [exact (Hcount eq_refl) | exact (Hok Hbuf)].
Defined.

Lemma init_regmap_out_of_memory_witness :
  fst (kbifInitXveRegMap_AD102 0 Sample.s_nomem) = NV_ERR_NO_MEMORY
  /\ kbif (snd (kbifInitXveRegMap_AD102 0 Sample.s_nomem))
     = populated (kbif Sample.s_nomem)
  /\ xveRegmapRef_1 (kbif (snd (kbifInitXveRegMap_AD102 0 Sample.s_nomem)))
     = xveRegmapRef_1 (kbif Sample.s_nomem).
Proof.
  pose proof (init_regmap_out_of_memory (hal := Sample.hal) Sample.s_nomem
                eq_refl) as H.
  destruct H as (_ & Hk & _ & H1 & _).
  split; [reflexivity|]. split; [exact Hk | exact H1].
Defined.

(** A failed allocation leaves entry 0 changed: a fresh entry has no mask
    table before the call and has one after it. *)
Lemma init_regmap_out_of_memory_changes_entry :
  fst (kbifInitXveRegMap_AD102 0 Sample.s_nomem) = NV_ERR_NO_MEMORY
  /\ xveRegmapRef_0 (kbif (snd (kbifInitXveRegMap_AD102 0 Sample.s_nomem)))
     <> xveRegmapRef_0 (kbif Sample.s_nomem).
Proof.
  split; [reflexivity|].
  intros H. apply (f_equal xveRegMapValid) in H. discriminate H.
Qed.

Lemma init_regmap_invalid_function_witness :
  2 <> 0 /\ 2 <> 1
  /\ fst (kbifInitXveRegMap_AD102 2 Sample.s_fresh) = NV_ERR_INVALID_ARGUMENT
  /\ kbif (snd (kbifInitXveRegMap_AD102 2 Sample.s_fresh))
     = kbif Sample.s_fresh.
Proof.
  assert (H0 : 2 <> 0) by discriminate.
  assert (H1 : 2 <> 1) by discriminate.
  pose proof (init_regmap_invalid_function (hal := Sample.hal) 2
                Sample.s_fresh H0 H1) as H.
  cbv zeta in H. destruct H as (Hs & Hk & _).
  split; [exact H0|]. split; [exact H1|]. split; [exact Hs | exact Hk].
Defined.

Lemma init_regmap_allocates_once_witness :
  bufMsixTable (xveRegmapRef_0 (kbif Sample.s_owned)) <> NULL
  /\ bufMsixTable (xveRegmapRef_0 (kbif (snd (kbifInitXveRegMap_AD102 0
                                                 Sample.s_owned))))
     = bufMsixTable (xveRegmapRef_0 (kbif Sample.s_owned))
  /\ memAllocs (snd (kbifInitXveRegMap_AD102 0 Sample.s_owned))
     = memAllocs Sample.s_owned
  /\ fst (kbifInitXveRegMap_AD102 0 Sample.s_fresh) = NV_OK
  /\ memAllocs (snd (kbifInitXveRegMap_AD102 0
                       (snd (kbifInitXveRegMap_AD102 0 Sample.s_fresh))))
     = memAllocs (snd (kbifInitXveRegMap_AD102 0 Sample.s_fresh)).
Proof.
  assert (Hp : bufMsixTable (xveRegmapRef_0 (kbif Sample.s_owned)) <> NULL)
    by discriminate.
  pose proof (init_regmap_allocates_once (hal := Sample.hal) Sample.s_owned)
    as H.
  pose proof (init_regmap_allocates_once (hal := Sample.hal) Sample.s_fresh)
    as H'.
  cbv zeta in H, H'.
  destruct H as [H _]. destruct (H Hp) as (_ & Hb & Ha & _).
  destruct H' as [_ H']. destruct (H' eq_refl) as (_ & _ & Ha' & _).
  split; [exact Hp|]. split; [exact Hb|]. split; [exact Ha|].
  split; [reflexivity | exact Ha'].
Defined.

Lemma request_error_is_reported_witness :
  fst (kbifPreOsGlobalErotGrantRequest_AD102 Sample.w_silent) <> NV_OK
  /\ fst (kbifPreOsGlobalErotGrantRequest_AD102 Sample.w_silent)
     = NV_ERR_TIMEOUT
  /\ regWrites (trace (sys (snd (kbifPreOsGlobalErotGrantRequest_AD102
                                   Sample.w_silent))))
     = [(NV_PBUS_SW_GLOBAL_EROT_GRANT, 3)].
Proof.
  assert (Hne : fst (kbifPreOsGlobalErotGrantRequest_AD102 Sample.w_silent)
                <> NV_OK) by (vm_compute; discriminate).
  destruct (request_error_is_reported (layout := Sample.layout)
              (timing := Sample.timing) Sample.w_silent Hne)
    as (Hto & _ & Hw & _).
  split; [exact Hne|]. split; [exact Hto | exact Hw].
Defined.

Lemma request_write_changes_request_only_witness :
  layoutOk = true
  /\ isU32 (nextRead (sys Sample.w_pending)) = true
  /\ validNo (nextRead (sys Sample.w_pending)) = false
  /\ allowYes (secondRead (sys Sample.w_pending)) = false
  /\ exists written,
       regWrites (trace (sys (snd (kbifPreOsGlobalErotGrantRequest_AD102
                                     Sample.w_pending))))
       = [(NV_PBUS_SW_GLOBAL_EROT_GRANT, written)]
       /\ validNo written = false.
Proof.
  destruct (request_write_changes_request_only (layout := Sample.layout)
              (timing := Sample.timing) Sample.w_pending
              eq_refl eq_refl eq_refl eq_refl)
    as (written & Hw & _ & _ & Hv & _).
  split; [reflexivity|]. split; [reflexivity|].
  split; [reflexivity|]. split; [reflexivity|].
  exists written. split; [exact Hw | exact Hv].
Defined.

Lemma init_regmap_idempotent_witness :
  fst (kbifInitXveRegMap_AD102 0 Sample.s_fresh) = NV_OK
  /\ kbifInitXveRegMap_AD102 0 (snd (kbifInitXveRegMap_AD102 0 Sample.s_fresh))
     = (NV_OK, snd (kbifInitXveRegMap_AD102 0 Sample.s_fresh)).
Proof.
  split; [reflexivity|].
  exact (init_regmap_idempotent (hal := Sample.hal) Sample.s_fresh eq_refl).
Defined.

Lemma init_regmap_frame_witness :
  0 <> 1
  /\ xveRegmapRef_1 (kbif (snd (kbifInitXveRegMap_AD102 0 Sample.s_fresh)))
     = xveRegmapRef_1 (kbif Sample.s_fresh)
  /\ regAccesses (trace (snd (kbifInitXveRegMap_AD102 0 Sample.s_fresh)))
     = regAccesses (trace Sample.s_fresh).
Proof.
  assert (H1 : 0 <> 1) by discriminate.
  pose proof (init_regmap_frame (hal := Sample.hal) 0 Sample.s_fresh H1) as H.
  cbv zeta in H. destruct H as (He & _ & _ & Ha & _).
  split; [exact H1|]. split; [exact He | exact Ha].
Defined.

Lemma init_regmap_retry_witness :
  fst (kbifInitXveRegMap_AD102 0 s_retry) = NV_ERR_NO_MEMORY
  /\ memAllocSizes
       (trace (snd (kbifInitXveRegMap_AD102 0
                      (snd (kbifInitXveRegMap_AD102 0 s_retry)))))
     = [96; 96]
  /\ fst (kbifInitXveRegMap_AD102 0 (snd (kbifInitXveRegMap_AD102 0 s_retry)))
     = NV_OK.
Proof.
  pose proof (init_regmap_retry (hal := Sample.hal) s_retry) as H.
  cbv zeta in H. destruct (H eq_refl) as (Hs & _ & Hok & _).
  split; [reflexivity|]. split; [exact Hs|].
  apply Hok. discriminate.
Defined.

Lemma init_regmap_failure_asserts_witness :
  2 <> 1
  /\ fst (kbifInitXveRegMap_AD102 2 Sample.s_fresh) = NV_ERR_INVALID_ARGUMENT
  /\ assertCount (trace (snd (kbifInitXveRegMap_AD102 2 Sample.s_fresh)))
     = 1%nat.
Proof.
  assert (H1 : 2 <> 1) by discriminate.
  assert (H0 : 2 <> 0) by discriminate.
  pose proof (init_regmap_failure_asserts (hal := Sample.hal) 2
                Sample.s_fresh H1) as H.
  cbv zeta in H. destruct H as (_ & Hinv & Hc).
  split; [exact H1|]. split; [exact (proj2 Hinv H0)|].
  rewrite Hc, (proj2 Hinv H0). reflexivity.
Defined.
